(** * Botelka's [wisdom.py]: path-cost estimator and state encoder

    A shallow embedding of [gupb/controller/botelka_ml/wisdom.py]: the
    module-level [get_state], the properties of the [Wisdom] facade,
    [find_path_len] and [move_one_tile].

    - Python exceptions are values of [exn], carried by the [result]
      monad; [try ... except Exception] is a match on the result.
    - A [dict] is an association list in insertion order, the order
      [items()] and [values()] iterate in.
    - The two [while] loops of [move_one_tile] are defined by well-founded
      recursion on the number of turns that are left.
    - The value [np.sqrt] returns is a binary64 float; an integer numpy
      has no 64-bit type for makes it raise [TypeError].
    - What [wisdom.py] imports ([gupb.model], the [pathfinding] package)
      is modelled from the specification where a definition is needed,
      and taken as a parameter otherwise.

    [menhir_distance] and [reach_menhir_before_mist] are left out. *)

From Stdlib Require Import ZArith List String Bool Lia Arith.
From Stdlib Require Import Floats.PrimFloat Floats.SpecFloat Floats.FloatOps.
From Equations Require Import Equations.
From Equations.Prop Require Import Logic.
Import ListNotations.

Local Open Scope string_scope.
Local Open Scope list_scope.
Local Open Scope Z_scope.

(** ** Exceptions *)

Inductive exn : Type :=
| KeyError
| IndexError
| ValueError
| AssertionError
| AttributeError
| TypeError.

Inductive result (A : Type) : Type :=
| Ok (a : A)
| Raise (e : exn).

Arguments Ok {A} a.
Arguments Raise {A} e.

Definition bind {A B : Type} (m : result A) (k : A -> result B) : result B :=
  match m with
  | Ok a => k a
  | Raise e => Raise e
  end.

Notation "x <- m ;; k" := (bind m (fun x => k))
  (at level 61, m at next level, right associativity).
Notation "' pat <- m ;; k" := (bind m (fun x => match x with pat => k end))
  (at level 61, pat pattern, m at next level, right associativity).

(** [assert cond, msg] *)
Definition assert_some {A : Type} (o : option A) : result A :=
  match o with
  | Some a => Ok a
  | None => Raise AssertionError
  end.

(** ** [gupb.model.coordinates] *)

(** Modelled from the spec: [Coords], [add_coords] and [sub_coords] of
    [gupb.model.coordinates] (not under src/): a Position is an integer
    (x, y) pair compared by value, added and subtracted componentwise. *)
Definition Coords : Type := (Z * Z)%type.

Definition add_coords (a b : Coords) : Coords := (fst a + fst b, snd a + snd b).
Definition sub_coords (a b : Coords) : Coords := (fst a - fst b, snd a - snd b).

Definition Coords_eqb (a b : Coords) : bool :=
  (fst a =? fst b) && (snd a =? snd b).

(** ** [gupb.model.characters.Facing] *)

(** Modelled from the spec: the enum [Facing] of [gupb.model.characters]
    (not under src/): four cardinal values in a cycle, each with a unit
    delta as its value; [turn_left] and [turn_right] step to the adjacent
    value of the cycle in opposite directions. *)
Inductive Facing : Type := UP | DOWN | LEFT | RIGHT.

Definition Facing_value (f : Facing) : Coords :=
  match f with
  | UP => (0, -1)
  | DOWN => (0, 1)
  | LEFT => (-1, 0)
  | RIGHT => (1, 0)
  end.

Definition turn_left (f : Facing) : Facing :=
  match f with
  | UP => LEFT
  | LEFT => DOWN
  | DOWN => RIGHT
  | RIGHT => UP
  end.

Definition turn_right (f : Facing) : Facing :=
  match f with
  | UP => RIGHT
  | RIGHT => DOWN
  | DOWN => LEFT
  | LEFT => UP
  end.

Definition Facing_eqb (a b : Facing) : bool :=
  match a, b with
  | UP, UP | DOWN, DOWN | LEFT, LEFT | RIGHT, RIGHT => true
  | _, _ => false
  end.

(** [Facing(value)]: the enum member with that value, [ValueError] when
    there is none. *)
Definition Facing_of_value (c : Coords) : result Facing :=
  if Coords_eqb c (Facing_value UP) then Ok UP
  else if Coords_eqb c (Facing_value DOWN) then Ok DOWN
  else if Coords_eqb c (Facing_value LEFT) then Ok LEFT
  else if Coords_eqb c (Facing_value RIGHT) then Ok RIGHT
  else Raise ValueError.

(** Number of [turn_left] (resp. [turn_right]) steps from [f] to [g]; the
    measures the two loops of [move_one_tile] go down on. *)
Definition cycle_index (f : Facing) : nat :=
  match f with
  | UP => 0
  | RIGHT => 1
  | DOWN => 2
  | LEFT => 3
  end%nat.

Definition right_turns (f g : Facing) : nat :=
  ((cycle_index g + 4 - cycle_index f) mod 4)%nat.

Definition left_turns (f g : Facing) : nat :=
  ((cycle_index f + 4 - cycle_index g) mod 4)%nat.

(** ** [Wisdom.move_one_tile] *)

(** [while facing_turning_left != exit_facing:
       facing_turning_left = facing_turning_left.turn_left(); left_actions += 1] *)
Equations turning_left_loop (facing_turning_left exit_facing : Facing) (left_actions : Z)
  : Z by wf (left_turns facing_turning_left exit_facing) lt :=
  turning_left_loop f e n with inspect (Facing_eqb f e) := {
    | exist _ true _ => n
    | exist _ false H => turning_left_loop (turn_left f) e (n + 1)
  }.
Next Obligation. destruct f, e; cbn in *; try discriminate H; lia. Qed.

Equations turning_right_loop (facing_turning_right exit_facing : Facing) (right_actions : Z)
  : Z by wf (right_turns facing_turning_right exit_facing) lt :=
  turning_right_loop f e n with inspect (Facing_eqb f e) := {
    | exist _ true _ => n
    | exist _ false H => turning_right_loop (turn_right f) e (n + 1)
  }.
Next Obligation. destruct f, e; cbn in *; try discriminate H; lia. Qed.

Definition move_one_tile (starting_facing : Facing) (coord_0 coord_1 : Coords)
  : result (Z * Facing) :=
  exit_facing <- Facing_of_value (sub_coords coord_1 coord_0) ;;
  let left_actions := turning_left_loop starting_facing exit_facing 0 in
  let right_actions := turning_right_loop starting_facing exit_facing 1 in
  let actions := if left_actions >? right_actions then right_actions else left_actions in
  let actions := actions + 1 in
  Ok (actions, exit_facing).

(** ** Python containers *)

(** A [dict], in insertion order. *)
Definition dict (K V : Type) : Type := list (K * V).

Section Dict.
Context {K V : Type} (eqb : K -> K -> bool).

(** [d.get(k)] *)
Fixpoint dict_get (d : dict K V) (k : K) : option V :=
  match d with
  | [] => None
  | (k', v) :: d' => if eqb k' k then Some v else dict_get d' k
  end.

(** [d[k]] *)
Definition dict_getitem (d : dict K V) (k : K) : result V :=
  match dict_get d k with
  | Some v => Ok v
  | None => Raise KeyError
  end.
End Dict.

(** [d.values()] *)
Definition dict_values {K V : Type} (d : dict K V) : list V := map snd d.

(** [l[i] = v] on a list: [IndexError] past the end. *)
Fixpoint list_setitem {A : Type} (l : list A) (i : nat) (v : A) : result (list A) :=
  match l, i with
  | [], _ => Raise IndexError
  | _ :: l', O => Ok (v :: l')
  | a :: l', S i' => l'' <- list_setitem l' i' v ;; Ok (a :: l'')
  end.

Definition is_some {A : Type} (o : option A) : bool :=
  match o with
  | Some _ => true
  | None => false
  end.

(** The binary64 float nearest to an integer (ties to even), as the
    conversion of a 64-bit integer to [float64] gives it. *)
Definition float_of_int (n : Z) : float :=
  SF2Prim (binary_normalize prec emax n 0 false).

(** [np.sqrt] of a Python [int]: an integer that fits [int64] or [uint64]
    is converted to [float64] and the correctly rounded square root is
    taken ([nan] below 0); any other integer becomes an object that has no
    [sqrt], and numpy raises [TypeError]. *)
Definition np_sqrt (n : Z) : result float :=
  if (- 2 ^ 63 <=? n) && (n <? 2 ^ 64)
  then Ok (PrimFloat.sqrt (float_of_int n))
  else Raise TypeError.

(** ** [gupb.model]: what the snapshot is made of *)

(** Modelled from the spec: the static terrain of [gupb.model.arenas]
    (not under src/), a walkability flag per Position. *)
Definition Terrain : Type := dict Coords bool.

(** Modelled from the spec: [Arena] of [gupb.model.arenas] (not under
    src/), with the attributes [wisdom.py] reads. *)
Module Arena.
Record t : Type := mk {
  name : string;
  terrain : Terrain;
  menhir_position : Coords;
  mist_radius : Z
}.
End Arena.

(** Modelled from the spec: the descriptions of [gupb.model] (not under
    src/) a snapshot is built from: a Tile has an optional occupant, an
    optional loot and a list of ground effects; an occupant has a health,
    a weapon and a facing. All are named tuples, hence truthy whenever
    they are not [None]. *)
Record WeaponDescription : Type := { name : string }.

Record ChampionDescription : Type := {
  controller_name : string;
  health : Z;
  weapon : WeaponDescription;
  facing : Facing
}.

Record EffectDescription : Type := { type : string }.

Record TileDescription : Type := {
  tile_type : string;
  loot : option WeaponDescription;
  character : option ChampionDescription;
  effects : list EffectDescription
}.

Record ChampionKnowledge : Type := {
  position : Coords;
  visible_tiles : dict Coords TileDescription
}.

(** ** [gupb.model.weapons] *)

(** The weapon objects of the catalog, told apart by [isinstance]. *)
Inductive Weapon : Type := Bow | Axe | Sword | Knife | Amulet.

Definition WEAPONS : dict string Weapon :=
  [("bow", Bow); ("axe", Axe); ("sword", Sword); ("knife", Knife); ("amulet", Amulet)].

Definition WEAPON_TO_INT : dict string Z :=
  [("bow", 0); ("axe", 1); ("sword", 2); ("knife", 3); ("amulet", 4)].

Definition FACING_TO_INT (f : Facing) : Z :=
  match f with
  | UP => 0
  | RIGHT => 1
  | LEFT => 2
  | DOWN => 3
  end.

Definition MAX_HEALTH : Z := 5.

(** The argument is [None] when it comes from [WEAPONS.get] on a name
    that is not in the catalog. *)
Definition weapon_ranking (weapon : option Weapon) : Z :=
  match weapon with
  | Some Bow => 10
  | Some Amulet => 8
  | Some Axe => 6
  | Some Sword => 6
  | _ => 0
  end.

(** ** [pathfinding.core.grid.Grid] *)

(** Modelled from the spec: the GridAdapter (the [Grid] of the
    [pathfinding] package, not under src/): a matrix of walkability flags
    in rows; [node] fails outside the extent of the matrix. *)
Record Grid : Type := { nodes : list (list bool) }.

Definition grid_lookup (g : Grid) (c : Coords) : option bool :=
  if (fst c <? 0) || (snd c <? 0) then None
  else match nth_error (nodes g) (Z.to_nat (snd c)) with
       | Some row => nth_error row (Z.to_nat (fst c))
       | None => None
       end.

Definition grid_node (g : Grid) (x y : Z) : result Coords :=
  match grid_lookup g (x, y) with
  | Some _ => Ok (x, y)
  | None => Raise IndexError
  end.

Definition walkable (g : Grid) (c : Coords) : bool :=
  match grid_lookup g c with
  | Some b => b
  | None => false
  end.

(** ** [State] *)

Module State.
Record t : Type := mk {
  map_name : Z;
  x : Z;
  y : Z;
  health : Z;
  visible_enemies : Z;
  can_attack_enemy : bool;
  facing : Z;
  weapon : Z;
  distance_to_menhir : float;
  tick : Z
}.

Definition get_length : Z := 9.

Definition as_tuple (self : t) : Z * Z * Z * Z * bool * Z * Z * float * Z :=
  (x self, y self, health self, visible_enemies self, can_attack_enemy self,
   facing self, weapon self, distance_to_menhir self, tick self).
End State.

(** ** The encoder and the [Wisdom] facade *)

Record Wisdom : Type := {
  arena : Arena.t;
  knowledge : option ChampionKnowledge;
  bot_name : string;
  grid : Grid;
  prev_knowledge : option ChampionKnowledge;
  t : Z
}.

(** [any(coord for coord in cut if visible_tiles[coord].character)]: the
    generator is consumed up to the first cell that holds a character (a
    coordinate pair is truthy), and no further. *)
Fixpoint any_character_at (tiles : dict Coords TileDescription) (cut : list Coords)
  : result bool :=
  match cut with
  | [] => Ok false
  | coord :: cut' =>
      tile <- dict_getitem Coords_eqb tiles coord ;;
      if is_some (character tile) then Ok true else any_character_at tiles cut'
  end.

(** [tile.character and coords != bot_coords] *)
Definition is_enemy_item (bot_coords : Coords) (item : Coords * TileDescription) : bool :=
  is_some (character (snd item)) && negb (Coords_eqb (fst item) bot_coords).

(** The [for] loop of [relative_enemies_positions] from index [i] on. *)
Fixpoint fill_offsets (relative_enemies_coords : list Coords) (i : nat) (res : list Z)
  : result (list Z) :=
  match relative_enemies_coords with
  | [] => Ok res
  | (x, y) :: rest =>
      res <- list_setitem res (2 * i) x ;;
      res <- list_setitem res (2 * i + 1) y ;;
      fill_offsets rest (S i) res
  end.

(** The [for] loop of [find_path_len] over the cells that are left. *)
Fixpoint walk_path (facing : Facing) (path : list Coords) (steps : Z) : result Z :=
  match path with
  | coord_0 :: (coord_1 :: _) as path' =>
      '(actions, facing') <- move_one_tile facing coord_0 coord_1 ;;
      walk_path facing' path' (steps + actions)
  | _ => Ok steps
  end.

Section Collaborators.

(** [Weapon.cut_positions(terrain, position, facing)] of
    [gupb.model.weapons], the attack footprint in iteration order. *)
Variable cut_positions : Weapon -> Terrain -> Coords -> Facing -> list Coords.

(** [DijkstraFinder.find_path(start, end, grid)] of the [pathfinding]
    package, without the run count it returns besides the path. *)
Variable find_path : Coords -> Coords -> Grid -> result (list Coords).

(** Python's [hash] on strings. *)
Variable hash : string -> Z.

Definition get_state (knowledge : ChampionKnowledge) (arena : Arena.t) (tick : Z)
  : result State.t :=
  let bot_coords := position knowledge in
  let bot_tile := dict_get Coords_eqb (visible_tiles knowledge) bot_coords in
  let bot_character :=
    match bot_tile with Some tile => character tile | None => None end in
  let bot_weapon :=
    match bot_character with Some c => name (weapon c) | None => "knife" end in
  let bot_facing :=
    match bot_character with Some c => facing c | None => UP end in
  let health :=
    match bot_character with Some c => health c | None => 5 end in
  let visible_enemies :=
    Z.of_nat (List.length (filter (is_enemy_item bot_coords) (visible_tiles knowledge))) in
  weapon_object <- dict_getitem String.eqb WEAPONS bot_weapon ;;
  can_attack_enemy <-
    any_character_at (visible_tiles knowledge)
      (cut_positions weapon_object (Arena.terrain arena) bot_coords bot_facing) ;;
  let facing := FACING_TO_INT bot_facing in
  weapon <- dict_getitem String.eqb WEAPON_TO_INT bot_weapon ;;
  let '(x, y) := sub_coords bot_coords (Arena.menhir_position arena) in
  menhir_distance <- np_sqrt (x ^ 2 + y ^ 2) ;;
  Ok (State.mk (hash (Arena.name arena)) (fst bot_coords) (snd bot_coords) health
        visible_enemies can_attack_enemy facing weapon menhir_distance tick).

Definition next_knowledge (self : Wisdom) (new_knowledge : ChampionKnowledge) : Wisdom :=
  {| arena := arena self;
     knowledge := Some new_knowledge;
     bot_name := bot_name self;
     grid := grid self;
     prev_knowledge := knowledge self;
     t := t self + 1 |}.

(** [self.knowledge.<attribute>]: [AttributeError] on [None]. *)
Definition attr_of (k : option ChampionKnowledge) : result ChampionKnowledge :=
  match k with
  | Some k => Ok k
  | None => Raise AttributeError
  end.

Definition bot_coords (self : Wisdom) : result Coords :=
  k <- attr_of (knowledge self) ;; Ok (position k).

Definition prev_bot_coords (self : Wisdom) : result Coords :=
  k <- attr_of (prev_knowledge self) ;; Ok (position k).

(** [self.knowledge.visible_tiles[self.bot_coords]] followed by the
    [assert tile.character]. *)
Definition bot_character (self : Wisdom) : result ChampionDescription :=
  k <- attr_of (knowledge self) ;;
  coords <- bot_coords self ;;
  tile <- dict_getitem Coords_eqb (visible_tiles k) coords ;;
  assert_some (character tile).

Definition prev_bot_facing (self : Wisdom) : result Facing :=
  k <- attr_of (prev_knowledge self) ;;
  coords <- bot_coords self ;;
  tile <- dict_getitem Coords_eqb (visible_tiles k) coords ;;
  c <- assert_some (character tile) ;;
  Ok (facing c).

Definition bot_facing (self : Wisdom) : result Facing :=
  c <- bot_character self ;; Ok (facing c).

Definition bot_health (self : Wisdom) : result Z :=
  c <- bot_character self ;; Ok (health c).

Definition prev_bot_health (self : Wisdom) : result Z :=
  match prev_knowledge self with
  | None => Ok MAX_HEALTH
  | Some k =>
      coords <- prev_bot_coords self ;;
      tile <- dict_getitem Coords_eqb (visible_tiles k) coords ;;
      c <- assert_some (character tile) ;;
      Ok (health c)
  end.

Definition bot_weapon (self : Wisdom) : result Weapon :=
  c <- bot_character self ;;
  let weapon_name := name (weapon c) in
  dict_getitem String.eqb WEAPONS weapon_name.

Definition relative_enemies_positions (self : Wisdom) : result (list Z) :=
  k <- attr_of (knowledge self) ;;
  coords <- bot_coords self ;;
  let enemies_coords := map fst (filter (is_enemy_item coords) (visible_tiles k)) in
  let relative_enemies_coords :=
    map (fun enemy_coord => sub_coords enemy_coord coords) enemies_coords in
  (* result = [0] * 10 *)
  fill_offsets relative_enemies_coords 0 (repeat 0 10).

Definition relative_menhir_position (self : Wisdom) : result (list Z) :=
  let menhir_coords := Arena.menhir_position (arena self) in
  coords <- bot_coords self ;;
  let relative_position := sub_coords menhir_coords coords in
  Ok [fst relative_position; snd relative_position].

Definition coords_did_not_change (self : Wisdom) : result bool :=
  match prev_knowledge self with
  | None => Ok false
  | Some pk => k <- attr_of (knowledge self) ;; Ok (Coords_eqb (position k) (position pk))
  end.

(** ["mist" in {effect.type for effect in visible_tile.effects}] *)
Definition has_mist (visible_tile : TileDescription) : bool :=
  existsb (fun effect => String.eqb "mist" (type effect)) (effects visible_tile).

Definition mist_visible (self : Wisdom) : result bool :=
  k <- attr_of (knowledge self) ;;
  Ok (existsb has_mist (dict_values (visible_tiles k))).

Definition enemies_visible (self : Wisdom) : result bool :=
  k <- attr_of (knowledge self) ;;
  Ok (existsb (fun visible_tile => is_some (character visible_tile))
        (dict_values (visible_tiles k))).

(** The generator of [better_weapon_visible] over the tiles that are
    left: [self.bot_weapon] is read for each tile that carries loot. *)
Fixpoint any_better_loot (self : Wisdom) (tiles : list TileDescription) : result bool :=
  match tiles with
  | [] => Ok false
  | tile :: tiles' =>
      match loot tile with
      | None => any_better_loot self tiles'
      | Some l =>
          let loot_rank := weapon_ranking (dict_get String.eqb WEAPONS (name l)) in
          own <- bot_weapon self ;;
          if loot_rank >? weapon_ranking (Some own) then Ok true
          else any_better_loot self tiles'
      end
  end.

Definition better_weapon_visible (self : Wisdom) : result bool :=
  k <- attr_of (knowledge self) ;;
  any_better_loot self (dict_values (visible_tiles k)).

Definition will_pick_up_worse_weapon (self : Wisdom) : result bool :=
  coords <- bot_coords self ;;
  f <- bot_facing self ;;
  let coords_in_front := add_coords coords (Facing_value f) in
  k <- attr_of (knowledge self) ;;
  tile <- dict_getitem Coords_eqb (visible_tiles k) coords_in_front ;;
  match loot tile with
  | None => Ok false
  | Some l =>
      (* the second lookup of the same cell finds the same tile *)
      let weapon_in_front := dict_get String.eqb WEAPONS (name l) in
      own <- bot_weapon self ;;
      Ok (weapon_ranking weapon_in_front <? weapon_ranking (Some own))
  end.

Definition can_attack_player (self : Wisdom) : result bool :=
  own <- bot_weapon self ;;
  coords <- bot_coords self ;;
  f <- bot_facing self ;;
  k <- attr_of (knowledge self) ;;
  any_character_at (visible_tiles k)
    (cut_positions own (Arena.terrain (arena self)) coords f).

Definition find_path_len (self : Wisdom) (coords : Coords) : result Z :=
  let steps := 0 in
  (* grid.cleanup(): the grid of the model carries no search marks *)
  own <- bot_coords self ;;
  start <- grid_node (grid self) (fst own) (snd own) ;;
  end_ <- grid_node (grid self) (fst coords) (snd coords) ;;
  path <- find_path start end_ (grid self) ;;
  facing <- bot_facing self ;;
  walk_path facing path steps.

Definition distance_to_menhir (self : Wisdom) : Z :=
  match find_path_len self (Arena.menhir_position (arena self)) with
  | Ok steps_num => steps_num
  | Raise _ => 1000000
  end.

Definition lost_health (self : Wisdom) : result bool :=
  h <- bot_health self ;;
  ph <- prev_bot_health self ;;
  Ok (negb (h =? ph)).

End Collaborators.

(** ** [pathfinding.finder.dijkstra.DijkstraFinder] *)

(** Modelled from the spec: the ShortestPathFinder (the [DijkstraFinder]
    of the [pathfinding] package, not under src/): uniform-cost search
    from the start cell over the walkable cardinal neighbours, here in the
    order up, right, down, left; the path found runs from the start cell
    to the target cell, and it is empty when the target is unreachable. *)
Definition neighbors (g : Grid) (c : Coords) : list Coords :=
  filter (walkable g)
    [(fst c, snd c - 1); (fst c + 1, snd c); (fst c, snd c + 1); (fst c - 1, snd c)].

Definition mem_coords (c : Coords) (l : list Coords) : bool :=
  existsb (Coords_eqb c) l.

(** Every entry of [open_list] is the path walked to its head cell, newest
    cell first. *)
Fixpoint search (fuel : nat) (g : Grid) (goal : Coords)
  (open_list : list (list Coords)) (opened : list Coords) : list Coords :=
  match fuel with
  | O => []
  | S fuel' =>
      match open_list with
      | [] => []
      | [] :: open_list' => search fuel' g goal open_list' opened
      | (node :: _) as walked :: open_list' =>
          if Coords_eqb node goal then rev walked
          else
            let fresh :=
              filter (fun n => negb (mem_coords n opened)) (neighbors g node) in
            search fuel' g goal
              (open_list' ++ map (fun n => n :: walked) fresh) (fresh ++ opened)
      end
  end.

Definition grid_size (g : Grid) : nat :=
  fold_right (fun row n => (List.length row + n)%nat) O (nodes g).

(** A cell is opened once, so at most [grid_size g + 1] entries are ever
    taken from the open list. *)
Definition dijkstra_find_path (start goal : Coords) (g : Grid) : result (list Coords) :=
  Ok (search (S (S (grid_size g))) g goal [[start]] [start]).

(** ** A weapon catalog for the scenarios *)

(** Modelled from the spec: attack footprints of [gupb.model.weapons]
    (not under src/), one catalog that fits the interface of the
    collaborator: a knife, a sword and a bow reach 1, 3 and 50 cells
    straight ahead, as far as the terrain goes; an axe reaches the three
    cells in front and an amulet the four diagonal cells, where the
    terrain has them. The theorems below hold for every catalog; this one
    gives the scenarios something to run. *)
Definition in_terrain (terrain : Terrain) (c : Coords) : bool :=
  is_some (dict_get Coords_eqb terrain c).

Fixpoint line_cut (reach : nat) (terrain : Terrain) (position delta : Coords)
  : list Coords :=
  match reach with
  | O => []
  | S reach' =>
      let cut_position := add_coords position delta in
      if in_terrain terrain cut_position
      then cut_position :: line_cut reach' terrain cut_position delta
      else []
  end.

Definition sample_cut_positions (w : Weapon) (terrain : Terrain) (position : Coords)
  (facing : Facing) : list Coords :=
  match w with
  | Knife => line_cut 1 terrain position (Facing_value facing)
  | Sword => line_cut 3 terrain position (Facing_value facing)
  | Bow => line_cut 50 terrain position (Facing_value facing)
  | Axe =>
      let centre := add_coords position (Facing_value facing) in
      filter (in_terrain terrain)
        [add_coords centre (Facing_value (turn_left facing)); centre;
         add_coords centre (Facing_value (turn_right facing))]
  | Amulet =>
      filter (in_terrain terrain)
        [add_coords position (1, 1); add_coords position (-1, 1);
         add_coords position (1, -1); add_coords position (-1, -1)]
  end.

Definition sample_hash (s : string) : Z := Z.of_nat (String.length s).

(** ** The words of the specification *)

(** The rotations of the action-cost model: the smaller of the number of
    left turns and the number of right turns from one facing to another. *)
Definition min_rotations (facing_in facing_out : Facing) : Z :=
  Z.min (Z.of_nat (left_turns facing_in facing_out))
        (Z.of_nat (right_turns facing_in facing_out)).

(** Two cells one grid unit apart along a cardinal axis. *)
Definition cardinally_adjacent (from to : Coords) : Prop :=
  exists f, sub_coords to from = Facing_value f.

(** A walk over walkable cells, one cardinal step at a time, leads from
    the first cell to the second. *)
Inductive connected (g : Grid) : Coords -> Coords -> Prop :=
| connected_here (c : Coords) : connected g c c
| connected_step (a b c : Coords) :
    cardinally_adjacent a b -> walkable g b = true -> connected g b c ->
    connected g a c.

(** A Path: consecutive cells are one cardinal step apart. *)
Fixpoint is_walk (path : list Coords) : Prop :=
  match path with
  | a :: (b :: _) as rest => cardinally_adjacent a b /\ is_walk rest
  | _ => True
  end.

(** What the entries of the finder's open list are: the cells walked from
    the start cell over walkable cells, newest first. *)
Inductive trail (g : Grid) (start : Coords) : list Coords -> Prop :=
| trail_start : trail g start [start]
| trail_step (n node : Coords) (walked : list Coords) :
    trail g start (node :: walked) ->
    cardinally_adjacent node n -> walkable g n = true ->
    trail g start (n :: node :: walked).

(** The cells of a straight run: [k] steps from [a] in the direction of
    [e]. *)
Fixpoint straight (a : Coords) (e : Facing) (k : nat) : list Coords :=
  match k with
  | O => [a]
  | S k' => a :: straight (add_coords a (Facing_value e)) e k'
  end.

(** The occupant of the agent's own cell in a snapshot, if any. *)
Definition own_occupant (k : ChampionKnowledge) : option ChampionDescription :=
  match dict_get Coords_eqb (visible_tiles k) (position k) with
  | Some tile => character tile
  | None => None
  end.

(** The integer [get_state] takes the square root of: dx^2 + dy^2 for
    the offset from the menhir to the own position. *)
Definition squared_distance (k : ChampionKnowledge) (a : Arena.t) : Z :=
  let d := sub_coords (position k) (Arena.menhir_position a) in
  fst d ^ 2 + snd d ^ 2.

(** What [get_state] takes for the own weapon and the own facing. *)
Definition own_weapon_name (k : ChampionKnowledge) : string :=
  match own_occupant k with
  | Some c => name (weapon c)
  | None => "knife"
  end.

Definition own_facing (k : ChampionKnowledge) : Facing :=
  match own_occupant k with
  | Some c => facing c
  | None => UP
  end.

(** A visible cell that hosts an occupant (resp. none). *)
Definition occupied (tiles : dict Coords TileDescription) (c : Coords) : Prop :=
  exists tile, dict_get Coords_eqb tiles c = Some tile /\ character tile <> None.

Definition unoccupied (tiles : dict Coords TileDescription) (c : Coords) : Prop :=
  exists tile, dict_get Coords_eqb tiles c = Some tile /\ character tile = None.

(** Where the scan of an attack footprint stops: at its end, at the first
    occupied cell, or at the first cell that is not visible. *)
Inductive scan_stop (tiles : dict Coords TileDescription) (cut : list Coords)
  : result bool -> Prop :=
| scan_through :
    Forall (unoccupied tiles) cut -> scan_stop tiles cut (Ok false)
| scan_hit (pre : list Coords) (cell : Coords) (post : list Coords) :
    cut = pre ++ cell :: post -> Forall (unoccupied tiles) pre ->
    occupied tiles cell -> scan_stop tiles cut (Ok true)
| scan_miss (pre : list Coords) (cell : Coords) (post : list Coords) :
    cut = pre ++ cell :: post -> Forall (unoccupied tiles) pre ->
    dict_get Coords_eqb tiles cell = None -> scan_stop tiles cut (Raise KeyError).

(** The offsets to the visible other occupants, in the iteration order of
    the visible-tiles map. *)
Definition enemy_offsets (k : ChampionKnowledge) : list Coords :=
  map (fun item => sub_coords (fst item) (position k))
      (filter (is_enemy_item (position k)) (visible_tiles k)).

Definition flatten_offsets (offsets : list Coords) : list Z :=
  flat_map (fun c => [fst c; snd c]) offsets.

(** Squared Euclidean length of an offset, and the stable insertion sort
    by it that the specification asks the truncation to follow. *)
Definition norm2 (c : Coords) : Z := fst c * fst c + snd c * snd c.

Fixpoint insert_by_distance (c : Coords) (l : list Coords) : list Coords :=
  match l with
  | [] => [c]
  | c' :: l' => if norm2 c <=? norm2 c' then c :: l else c' :: insert_by_distance c l'
  end.

Definition sort_by_distance (l : list Coords) : list Coords :=
  fold_right insert_by_distance [] l.

Definition capacity : nat := 5.

Definition spec_relative_offsets (k : ChampionKnowledge) : list Z :=
  let chosen := firstn capacity (sort_by_distance (enemy_offsets k)) in
  flatten_offsets chosen ++ repeat 0 (2 * (capacity - List.length chosen)).

(** A boolean query that returns, and returns [true] exactly when [P]. *)
Definition returns_iff (r : result bool) (P : Prop) : Prop :=
  exists b, r = Ok b /\ (b = true <-> P).

(** ** Scenarios *)

Definition champion (h : Z) (weapon_name : string) (f : Facing) : ChampionDescription :=
  {| controller_name := "botelka"; health := h;
     weapon := {| name := weapon_name |}; facing := f |}.

Definition rival (f : Facing) : ChampionDescription :=
  {| controller_name := "rival"; health := 5;
     weapon := {| name := "knife" |}; facing := f |}.

Definition ground (l : option WeaponDescription) (c : option ChampionDescription)
  : TileDescription :=
  {| tile_type := "land"; loot := l; character := c; effects := [] |}.

Definition row_terrain : Terrain := [((0, 0), true); ((1, 0), true); ((2, 0), true)].

Definition row_arena : Arena.t :=
  {| Arena.name := "row"; Arena.terrain := row_terrain;
     Arena.menhir_position := (2, 0); Arena.mist_radius := 100 |}.

Definition wisdom_on (a : Arena.t) (g : Grid) (k : ChampionKnowledge)
  (pk : option ChampionKnowledge) : Wisdom :=
  {| arena := a; knowledge := Some k; bot_name := "botelka"; grid := g;
     prev_knowledge := pk; t := 1 |}.

Definition wisdom_of (g : Grid) (k : ChampionKnowledge) (pk : option ChampionKnowledge)
  : Wisdom :=
  wisdom_on row_arena g k pk.

(** The agent alone at (0, 0), seeing its own cell only. *)
Definition alone (h : Z) (weapon_name : string) (f : Facing) : ChampionKnowledge :=
  {| position := (0, 0);
     visible_tiles := [((0, 0), ground None (Some (champion h weapon_name f)))] |}.

(** A row of three cells, open or with the middle cell blocked. *)
Definition open_row : Grid := {| nodes := [[true; true; true]] |}.
Definition walled_row : Grid := {| nodes := [[true; false; true]] |}.

(** The agent at (0, 0) facing right, what lies on the three cells ahead
    being given; a cell given as [None] is not visible. *)
Definition looking_right (weapon_name : string) (ahead : list (option TileDescription))
  : ChampionKnowledge :=
  {| position := (0, 0);
     visible_tiles :=
       ((0, 0), ground None (Some (champion 5 weapon_name RIGHT))) ::
       flat_map (fun item => match snd item with
                             | Some tile => [((Z.of_nat (fst item), 0), tile)]
                             | None => []
                             end)
                (combine (seq 1 (List.length ahead)) ahead) |}.

(** The own cell visible without its occupant. *)
Definition ghost : ChampionKnowledge :=
  {| position := (1, 0); visible_tiles := [((1, 0), ground None None)] |}.

(** An open field of five by five cells, the agent on its middle cell
    (2, 2) among the rivals standing on the given cells. *)
Definition field : Grid := {| nodes := repeat (repeat true 5) 5 |}.

Definition field_terrain : Terrain :=
  flat_map (fun j => map (fun i => ((Z.of_nat i, Z.of_nat j), true)) (seq 0 5)) (seq 0 5).

Definition field_arena : Arena.t :=
  {| Arena.name := "field"; Arena.terrain := field_terrain;
     Arena.menhir_position := (4, 4); Arena.mist_radius := 100 |}.

Definition crowd (cells : list Coords) : ChampionKnowledge :=
  {| position := (2, 2);
     visible_tiles :=
       ((2, 2), ground None (Some (champion 5 "knife" UP))) ::
       map (fun c => (c, ground None (Some (rival DOWN)))) cells |}.

Definition crowd_wisdom (cells : list Coords) : Wisdom :=
  wisdom_on field_arena field (crowd cells) None.

Definition six_cells : list Coords := [(2, 0); (2, 1); (1, 2); (3, 2); (2, 3); (2, 4)].

(** Loot of a kind the catalog does not know on the cell ahead. *)
Definition scroll_ahead (weapon_name : string) : ChampionKnowledge :=
  looking_right weapon_name [Some (ground (Some {| name := "scroll" |}) None)].

(** A rival on the cell ahead, the cells behind it not being visible. *)
Definition rival_ahead (weapon_name : string) : ChampionKnowledge :=
  looking_right weapon_name [Some (ground None (Some (rival LEFT)))].

(** The agent one cell further than in [rival_ahead], on the cell where
    the rival stood. *)
Definition moved_ahead : ChampionKnowledge :=
  {| position := (1, 0);
     visible_tiles := [((1, 0), ground None (Some (champion 5 "knife" RIGHT)))] |}.

(** Mist on the cell ahead. *)
Definition mist_ahead : ChampionKnowledge :=
  looking_right "knife"
    [Some {| tile_type := "land"; loot := None; character := None;
             effects := [{| type := "mist" |}] |}].

(** A bow lying on the cell ahead. *)
Definition bow_ahead (weapon_name : string) : ChampionKnowledge :=
  looking_right weapon_name [Some (ground (Some {| name := "bow" |}) None)].

(** No cell in view at all, the agent's own cell included. *)
Definition blind : ChampionKnowledge :=
  {| position := (1, 0); visible_tiles := [] |}.

(** The row with the menhir 2^32 cells away from it. *)
Definition far_arena : Arena.t :=
  {| Arena.name := "far"; Arena.terrain := row_terrain;
     Arena.menhir_position := (2 ^ 32, 0); Arena.mist_radius := 100 |}.

(** * Properties *)

(** ** The facing cycle *)

Lemma Facing_eqb_eq (a b : Facing) : Facing_eqb a b = true <-> a = b.
Proof. destruct a, b; simpl; split; congruence. Qed.

Lemma Coords_eqb_eq (a b : Coords) : Coords_eqb a b = true <-> a = b.
Proof.
  destruct a as [ax ay], b as [bx b_y]; unfold Coords_eqb; simpl.
  rewrite andb_true_iff, !Z.eqb_eq. split.
  - intros [-> ->]; reflexivity.
  - intros H; inversion H; auto.
Qed.

Lemma Coords_eqb_refl (a : Coords) : Coords_eqb a a = true.
Proof. now apply Coords_eqb_eq. Qed.

Lemma turn_left_right (f : Facing) : turn_left (turn_right f) = f.
Proof. now destruct f. Qed.

Lemma turn_right_left (f : Facing) : turn_right (turn_left f) = f.
Proof. now destruct f. Qed.

Lemma turn_left_four (f : Facing) : Nat.iter 4 turn_left f = f.
Proof. now destruct f. Qed.

(** [left_turns f g] is the number of left turns that lead from [f] to
    [g], and no smaller number does. *)
Lemma left_turns_reaches (f g : Facing) : Nat.iter (left_turns f g) turn_left f = g.
Proof. now destruct f, g. Qed.

Lemma left_turns_least (f g : Facing) (k : nat) :
  (k < left_turns f g)%nat -> Nat.iter k turn_left f <> g.
Proof.
  destruct f, g; cbn; intros H;
    repeat (destruct k as [|k]; [cbn; discriminate | ]); lia.
Qed.

Lemma right_turns_reaches (f g : Facing) : Nat.iter (right_turns f g) turn_right f = g.
Proof. now destruct f, g. Qed.

Lemma right_turns_least (f g : Facing) (k : nat) :
  (k < right_turns f g)%nat -> Nat.iter k turn_right f <> g.
Proof.
  destruct f, g; cbn; intros H;
    repeat (destruct k as [|k]; [cbn; discriminate | ]); lia.
Qed.

Lemma min_rotations_range (f g : Facing) : 0 <= min_rotations f g <= 2.
Proof. destruct f, g; cbn; lia. Qed.

Lemma Facing_of_value_value (f : Facing) : Facing_of_value (Facing_value f) = Ok f.
Proof. now destruct f. Qed.

Lemma Facing_of_value_inv (c : Coords) (f : Facing) :
  Facing_of_value c = Ok f -> c = Facing_value f.
Proof.
  unfold Facing_of_value.
  destruct (Coords_eqb c (Facing_value UP)) eqn:E1;
    [ apply Coords_eqb_eq in E1; congruence | ].
  destruct (Coords_eqb c (Facing_value DOWN)) eqn:E2;
    [ apply Coords_eqb_eq in E2; congruence | ].
  destruct (Coords_eqb c (Facing_value LEFT)) eqn:E3;
    [ apply Coords_eqb_eq in E3; congruence | ].
  destruct (Coords_eqb c (Facing_value RIGHT)) eqn:E4;
    [ apply Coords_eqb_eq in E4; congruence | ].
  intros H; discriminate H.
Qed.

(** ** The two loops of [move_one_tile] *)

Lemma turning_left_loop_count (f e : Facing) (n : Z) :
  turning_left_loop f e n = n + Z.of_nat (left_turns f e).
Proof.
  funelim (turning_left_loop f e n).
  - match goal with
    | E : Facing_eqb ?f ?e = true |- _ =>
        pose proof (proj1 (Facing_eqb_eq f e) E) as ->
    end.
    clear. destruct e; cbn; lia.
  - match goal with
    | IH : turning_left_loop _ _ _ = _ + Z.of_nat _ |- _ => rewrite IH
    end.
    match goal with
    | E : Facing_eqb ?f ?e = false |- _ =>
        clear - E; destruct f, e; cbn in *; try discriminate E; lia
    end.
Qed.

Lemma turning_right_loop_count (f e : Facing) (n : Z) :
  turning_right_loop f e n = n + Z.of_nat (right_turns f e).
Proof.
  funelim (turning_right_loop f e n).
  - match goal with
    | E : Facing_eqb ?f ?e = true |- _ =>
        pose proof (proj1 (Facing_eqb_eq f e) E) as ->
    end.
    clear. destruct e; cbn; lia.
  - match goal with
    | IH : turning_right_loop _ _ _ = _ + Z.of_nat _ |- _ => rewrite IH
    end.
    match goal with
    | E : Facing_eqb ?f ?e = false |- _ =>
        clear - E; destruct f, e; cbn in *; try discriminate E; lia
    end.
Qed.

(** ** The action-cost model *)

(** On a cardinal step the cost is one more than the smaller of the left
    count and the right count, where the right count starts at 1. *)
Lemma move_one_tile_cost (f e : Facing) (from to : Coords) :
  sub_coords to from = Facing_value e ->
  move_one_tile f from to =
    Ok (Z.min (Z.of_nat (left_turns f e)) (1 + Z.of_nat (right_turns f e)) + 1, e).
Proof.
  intros Hstep. unfold move_one_tile.
  rewrite Hstep, Facing_of_value_value. cbn [bind].
  rewrite turning_left_loop_count, turning_right_loop_count.
  do 2 f_equal. f_equal.
  destruct (_ >? _) eqn:E; [apply Z.gtb_lt in E | rewrite Z.gtb_ltb in E; apply Z.ltb_ge in E]; lia.
Qed.

(** X2: a step that is not one grid unit along a cardinal axis (the same
    cell twice, a diagonal, a jump) has no facing, and [move_one_tile]
    raises [ValueError] whatever the starting facing. *)
Lemma move_one_tile_not_cardinal (f : Facing) (from to : Coords) :
  ~ cardinally_adjacent from to -> move_one_tile f from to = Raise ValueError.
Proof.
  intros Hn. unfold move_one_tile.
  destruct (Facing_of_value (sub_coords to from)) as [e | x] eqn:E.
  - exfalso. apply Hn. exists e. now apply Facing_of_value_inv.
  - unfold Facing_of_value in E.
    repeat match type of E with
           | (if ?b then _ else _) = _ => destruct b; [discriminate E | ]
           end.
    inversion E. reflexivity.
Qed.

(** The cost stays within 1..3 and the facing returned is the facing of
    the step. *)
Lemma move_one_tile_range (f : Facing) (from to : Coords) :
  cardinally_adjacent from to ->
  exists cost e,
    move_one_tile f from to = Ok (cost, e) /\
    1 <= cost <= 3 /\ Facing_value e = sub_coords to from.
Proof.
  intros [e He]. eexists _, e. split; [now apply move_one_tile_cost | ].
  split; [ | now symmetry ].
  destruct f, e; cbn; lia.
Qed.

(** The cost is the specified [min_rotations + 1] unless a single right
    turn is what the step asks for. *)
Lemma move_one_tile_minimal (f e : Facing) (from to : Coords) :
  sub_coords to from = Facing_value e ->
  right_turns f e <> 1%nat ->
  move_one_tile f from to = Ok (min_rotations f e + 1, e).
Proof.
  intros Hstep Hr. rewrite (move_one_tile_cost f e) by assumption.
  do 2 f_equal. f_equal. unfold min_rotations.
  destruct f, e; cbn in *; try lia.
Qed.

Lemma move_one_tile_single_right_turn (f e : Facing) (from to : Coords) :
  sub_coords to from = Facing_value e ->
  right_turns f e = 1%nat ->
  move_one_tile f from to = Ok (3, e) /\ min_rotations f e + 1 = 2.
Proof.
  intros Hstep Hr. rewrite (move_one_tile_cost f e) by assumption.
  unfold min_rotations. destruct f, e; cbn in *; try discriminate Hr; split; reflexivity.
Qed.

(** C1: a step to the right of the starting facing needs one rotation, so
    the specified cost is 1 + 1 = 2, while [move_one_tile] returns 3: its
    right-turn counter starts at 1, and the comparison with the three left
    turns picks 2 rotations. The facing returned is the right one. *)
Theorem move_one_tile_overcounts_right_turn :
  cardinally_adjacent (0, 0) (1, 0) /\
  Facing_value RIGHT = sub_coords (1, 0) (0, 0) /\
  min_rotations UP RIGHT + 1 = 2 /\
  move_one_tile UP (0, 0) (1, 0) = Ok (3, RIGHT).
Proof.
  split; [exists RIGHT; reflexivity | ].
  repeat split.
Qed.

(** ** Reading the agent's own cell *)

Lemma bot_character_unfold (self : Wisdom) (k : ChampionKnowledge) :
  knowledge self = Some k ->
  bot_character self =
    match dict_get Coords_eqb (visible_tiles k) (position k) with
    | Some tile => assert_some (character tile)
    | None => Raise KeyError
    end.
Proof.
  intros Hk. unfold bot_character, bot_coords, dict_getitem. rewrite Hk. cbn.
  now destruct (dict_get _ _ _).
Qed.

Lemma bot_character_present (self : Wisdom) (k : ChampionKnowledge)
  (c : ChampionDescription) :
  knowledge self = Some k -> own_occupant k = Some c -> bot_character self = Ok c.
Proof.
  intros Hk Hc. rewrite (bot_character_unfold self k Hk).
  unfold own_occupant in Hc. destruct (dict_get _ _ _); [ | discriminate Hc].
  now rewrite Hc.
Qed.

Lemma bot_character_missing (self : Wisdom) (k : ChampionKnowledge) :
  knowledge self = Some k -> own_occupant k = None ->
  exists e, (e = KeyError \/ e = AssertionError) /\ bot_character self = Raise e.
Proof.
  intros Hk Hc. rewrite (bot_character_unfold self k Hk).
  unfold own_occupant in Hc. destruct (dict_get _ _ _).
  - rewrite Hc. exists AssertionError. auto.
  - exists KeyError. auto.
Qed.

Lemma prev_bot_health_present (self : Wisdom) (pk : ChampionKnowledge)
  (pc : ChampionDescription) :
  prev_knowledge self = Some pk -> own_occupant pk = Some pc ->
  prev_bot_health self = Ok (health pc).
Proof.
  intros Hk Hc. unfold prev_bot_health, prev_bot_coords, dict_getitem. rewrite Hk.
  cbn [attr_of bind].
  unfold own_occupant in Hc. destruct (dict_get _ _ _); [ | discriminate Hc].
  cbn [bind]. now rewrite Hc.
Qed.

Lemma negb_eqb_true_iff (a b : Z) : negb (a =? b) = true <-> a <> b.
Proof. rewrite negb_true_iff. apply Z.eqb_neq. Qed.

(** Which exception the missing occupant gives: [AssertionError] when the
    own cell is visible, [KeyError] when it is not. *)
Lemma bot_character_missing_exn (self : Wisdom) (k : ChampionKnowledge) :
  knowledge self = Some k -> own_occupant k = None ->
  bot_character self =
    Raise (match dict_get Coords_eqb (visible_tiles k) (position k) with
           | Some _ => AssertionError
           | None => KeyError
           end).
Proof.
  intros Hk Hc. rewrite (bot_character_unfold self k Hk).
  unfold own_occupant in Hc. destruct (dict_get _ _ _); [ | reflexivity].
  now rewrite Hc.
Qed.

(** ** The square root of [get_state] *)

Lemma squared_distance_nonneg (k : ChampionKnowledge) (a : Arena.t) :
  0 <= squared_distance k a.
Proof. unfold squared_distance. cbv zeta. rewrite !Z.pow_2_r. nia. Qed.

Lemma np_sqrt_fits (n : Z) :
  0 <= n < 2 ^ 64 -> np_sqrt n = Ok (PrimFloat.sqrt (float_of_int n)).
Proof.
  intros Hn. unfold np_sqrt.
  destruct (Z.leb_spec (- 2 ^ 63) n) as [_ | H]; [ | lia].
  destruct (Z.ltb_spec n (2 ^ 64)) as [_ | H]; [reflexivity | lia].
Qed.

Lemma np_sqrt_too_large (n : Z) : 2 ^ 64 <= n -> np_sqrt n = Raise TypeError.
Proof.
  intros Hn. unfold np_sqrt.
  destruct (Z.ltb_spec n (2 ^ 64)) as [H | _]; [lia | ].
  now rewrite andb_false_r.
Qed.

Example np_sqrt_uint64 :
  np_sqrt (3037000500 ^ 2) = Ok (float_of_int 3037000500) /\
  np_sqrt (2 ^ 64) = Raise TypeError.
Proof. split; reflexivity. Qed.

Lemma WEAPON_TO_INT_same_keys (n : string) (w : Weapon) :
  dict_get String.eqb WEAPONS n = Some w ->
  exists i, dict_get String.eqb WEAPON_TO_INT n = Some i.
Proof.
  unfold WEAPONS, WEAPON_TO_INT. cbn [dict_get].
  repeat match goal with
         | |- context [String.eqb ?a n] => destruct (String.eqb a n); [eauto | ]
         end.
  discriminate.
Qed.

Lemma get_state_eq
  (cut_positions : Weapon -> Terrain -> Coords -> Facing -> list Coords)
  (hash : string -> Z) (k : ChampionKnowledge) (a : Arena.t) (tick : Z) :
  get_state cut_positions hash k a tick =
    (w <- dict_getitem String.eqb WEAPONS (own_weapon_name k) ;;
     can_attack_enemy <-
       any_character_at (visible_tiles k)
         (cut_positions w (Arena.terrain a) (position k) (own_facing k)) ;;
     code <- dict_getitem String.eqb WEAPON_TO_INT (own_weapon_name k) ;;
     menhir_distance <- np_sqrt (squared_distance k a) ;;
     Ok (State.mk (hash (Arena.name a)) (fst (position k)) (snd (position k))
           (match own_occupant k with Some c => health c | None => 5 end)
           (Z.of_nat (List.length (filter (is_enemy_item (position k)) (visible_tiles k))))
           can_attack_enemy (FACING_TO_INT (own_facing k)) code menhir_distance tick)).
Proof.
  unfold get_state, squared_distance, own_weapon_name, own_facing, own_occupant.
  cbv zeta.
  destruct (dict_getitem String.eqb WEAPONS _); [cbn [bind] | reflexivity].
  destruct (any_character_at _ _); [cbn [bind] | reflexivity].
  destruct (dict_getitem String.eqb WEAPON_TO_INT _); [cbn [bind] | reflexivity].
  now destruct (sub_coords _ _).
Qed.

Lemma get_state_unfold
  (cut_positions : Weapon -> Terrain -> Coords -> Facing -> list Coords)
  (hash : string -> Z) (k : ChampionKnowledge) (a : Arena.t) (tick : Z)
  (w : Weapon) (b : bool) :
  dict_get String.eqb WEAPONS (own_weapon_name k) = Some w ->
  any_character_at (visible_tiles k)
    (cut_positions w (Arena.terrain a) (position k) (own_facing k)) = Ok b ->
  exists code,
    dict_get String.eqb WEAPON_TO_INT (own_weapon_name k) = Some code /\
    get_state cut_positions hash k a tick =
      (menhir_distance <- np_sqrt (squared_distance k a) ;;
       Ok (State.mk (hash (Arena.name a)) (fst (position k)) (snd (position k))
             (match own_occupant k with Some c => health c | None => 5 end)
             (Z.of_nat (List.length (filter (is_enemy_item (position k)) (visible_tiles k))))
             b (FACING_TO_INT (own_facing k)) code menhir_distance tick)).
Proof.
  intros Hw Hscan. destruct (WEAPON_TO_INT_same_keys _ w Hw) as [code Hcode].
  exists code. split; [exact Hcode | ].
  rewrite get_state_eq. unfold dict_getitem. rewrite Hw. cbn [bind].
  rewrite Hscan. cbn [bind]. rewrite Hcode. reflexivity.
Qed.

Lemma get_state_returns
  (cut_positions : Weapon -> Terrain -> Coords -> Facing -> list Coords)
  (hash : string -> Z) (k : ChampionKnowledge) (a : Arena.t) (tick : Z) (st : State.t) :
  get_state cut_positions hash k a tick = Ok st ->
  exists w b,
    dict_get String.eqb WEAPONS (own_weapon_name k) = Some w /\
    any_character_at (visible_tiles k)
      (cut_positions w (Arena.terrain a) (position k) (own_facing k)) = Ok b.
Proof.
  intros H. rewrite get_state_eq in H. unfold dict_getitem at 1 in H.
  destruct (dict_get String.eqb WEAPONS (own_weapon_name k)) as [w | ];
    [ | discriminate H].
  cbn [bind] in H.
  destruct (any_character_at _ _) as [b | ] eqn:Hscan; [ | discriminate H].
  now exists w, b.
Qed.

(** ** Derived queries *)

(** C9: with the own occupant present in the snapshots, [lost_health]
    returns, and it returns true exactly when the own health of the
    current snapshot differs from the own health of the previous one; when
    there is no previous snapshot the baseline is [MAX_HEALTH]. *)
Theorem lost_health_iff_health_differs (self : Wisdom) (k : ChampionKnowledge)
  (c : ChampionDescription) :
  knowledge self = Some k ->
  own_occupant k = Some c ->
  match prev_knowledge self with
  | None => returns_iff (lost_health self) (health c <> MAX_HEALTH)
  | Some pk =>
      forall pc, own_occupant pk = Some pc ->
                 returns_iff (lost_health self) (health c <> health pc)
  end.
Proof.
  intros Hk Hc.
  assert (Hh : bot_health self = Ok (health c)).
  { unfold bot_health. now rewrite (bot_character_present self k c). }
  destruct (prev_knowledge self) as [pk | ] eqn:Hp.
  - intros pc Hpc. unfold lost_health.
    rewrite Hh, (prev_bot_health_present self pk pc Hp Hpc). cbn.
    eexists. split; [reflexivity | apply negb_eqb_true_iff].
  - unfold lost_health, prev_bot_health. rewrite Hh, Hp. cbn.
    eexists. split; [reflexivity | apply negb_eqb_true_iff].
Qed.

Lemma lost_health_iff_health_differs_witness :
  returns_iff (lost_health (wisdom_of open_row (alone 4 "knife" UP) None))
              (health (champion 4 "knife" UP) <> MAX_HEALTH) /\
  returns_iff (lost_health (wisdom_of open_row (alone 4 "knife" UP)
                              (Some (alone 4 "knife" LEFT))))
              (health (champion 4 "knife" UP) <> health (champion 4 "knife" LEFT)).
Proof.
  split.
  - exact (lost_health_iff_health_differs
             (wisdom_of open_row (alone 4 "knife" UP) None)
             (alone 4 "knife" UP) (champion 4 "knife" UP) eq_refl eq_refl).
  - exact (lost_health_iff_health_differs
             (wisdom_of open_row (alone 4 "knife" UP) (Some (alone 4 "knife" LEFT)))
             (alone 4 "knife" UP) (champion 4 "knife" UP) eq_refl eq_refl
             (champion 4 "knife" LEFT) eq_refl).
Defined.

(** [lost_health] returns only when both healths can be read. *)
Lemma lost_health_returns (self : Wisdom) (b : bool) :
  lost_health self = Ok b ->
  exists h ph, bot_health self = Ok h /\ prev_bot_health self = Ok ph /\
               b = negb (h =? ph).
Proof.
  unfold lost_health. intros H.
  destruct (bot_health self) as [h | ]; [ | discriminate H].
  destruct (prev_bot_health self) as [ph | ]; [ | discriminate H].
  cbn in H. inversion H. eauto.
Qed.

(** [enemies_visible] looks for any occupant, the agent included. *)
Lemma enemies_visible_iff_any_occupant (self : Wisdom) (k : ChampionKnowledge) :
  knowledge self = Some k ->
  returns_iff (enemies_visible self)
    (exists item, In item (visible_tiles k) /\ character (snd item) <> None).
Proof.
  intros Hk. unfold enemies_visible. rewrite Hk. cbn.
  eexists. split; [reflexivity | ].
  unfold dict_values. rewrite existsb_exists. split.
  - intros [tile [Hin Hc]]. apply in_map_iff in Hin. destruct Hin as [item [<- Hin]].
    exists item. split; [assumption | ]. destruct (character (snd item)); [discriminate | discriminate Hc].
  - intros [item [Hin Hc]]. exists (snd item). split; [now apply in_map | ].
    destruct (character (snd item)); [reflexivity | now elim Hc].
Qed.

(** C5: the agent alone on the only visible cell. No visible cell hosts an
    occupant other than the agent (the encoder's own count of visible
    enemies is 0), and yet [enemies_visible] returns true: unlike
    [get_state] and [relative_enemies_positions], it does not leave the
    agent's own cell out. *)
Theorem enemies_visible_counts_self :
  filter (is_enemy_item (position (alone 5 "knife" UP)))
         (visible_tiles (alone 5 "knife" UP)) = [] /\
  enemies_visible (wisdom_of open_row (alone 5 "knife" UP) None) = Ok true.
Proof. split; reflexivity. Qed.

(** ** A snapshot without the own occupant *)

Lemma get_state_without_occupant
  (cut_positions : Weapon -> Terrain -> Coords -> Facing -> list Coords)
  (hash : string -> Z) (k : ChampionKnowledge) (a : Arena.t) (tick : Z) :
  own_occupant k = None ->
  get_state cut_positions hash k a tick =
    (can_attack_enemy <-
       any_character_at (visible_tiles k)
         (cut_positions Knife (Arena.terrain a) (position k) UP) ;;
     menhir_distance <- np_sqrt (squared_distance k a) ;;
     Ok (State.mk (hash (Arena.name a)) (fst (position k)) (snd (position k)) 5
           (Z.of_nat (List.length (filter (is_enemy_item (position k)) (visible_tiles k))))
           can_attack_enemy (FACING_TO_INT UP) 3 menhir_distance tick)).
Proof.
  intros Hc. rewrite get_state_eq. unfold own_weapon_name, own_facing. rewrite Hc.
  reflexivity.
Qed.

(** C7, as the code has it: when the agent's own cell carries no occupant,
    the properties of [Wisdom] that read the own facing, health or weapon
    fail, with [AssertionError] when the own cell is visible and with
    [KeyError] when it is not, and so do the queries built on them;
    [get_state] does not: it goes on with the knife, facing up and
    health 5, through the scan of the knife's footprint and the square
    root, whose errors are the only ones it can still raise. *)
Theorem missing_occupant_fails_in_wisdom_only
  (cut_positions : Weapon -> Terrain -> Coords -> Facing -> list Coords)
  (hash : string -> Z) (self : Wisdom) (k : ChampionKnowledge) (tick : Z) :
  knowledge self = Some k ->
  own_occupant k = None ->
  let e := match dict_get Coords_eqb (visible_tiles k) (position k) with
           | Some _ => AssertionError
           | None => KeyError
           end in
  (bot_facing self = Raise e /\ bot_health self = Raise e /\
   bot_weapon self = Raise e /\ lost_health self = Raise e /\
   will_pick_up_worse_weapon self = Raise e /\
   can_attack_player cut_positions self = Raise e) /\
  get_state cut_positions hash k (arena self) tick =
    (can_attack_enemy <-
       any_character_at (visible_tiles k)
         (cut_positions Knife (Arena.terrain (arena self)) (position k) UP) ;;
     menhir_distance <- np_sqrt (squared_distance k (arena self)) ;;
     Ok (State.mk (hash (Arena.name (arena self))) (fst (position k)) (snd (position k)) 5
           (Z.of_nat (List.length (filter (is_enemy_item (position k)) (visible_tiles k))))
           can_attack_enemy (FACING_TO_INT UP) 3 menhir_distance tick)).
Proof.
  intros Hk Hc e. split; [ | now apply get_state_without_occupant].
  pose proof (bot_character_missing_exn self k Hk Hc) as Hr. fold e in Hr.
  unfold bot_facing, bot_health, bot_weapon, lost_health, will_pick_up_worse_weapon,
    can_attack_player, bot_facing, bot_health, bot_weapon, bot_coords.
  rewrite Hr, Hk. cbn. repeat split.
Qed.

Lemma missing_occupant_fails_in_wisdom_only_witness :
  (bot_facing (wisdom_of open_row ghost None) = Raise AssertionError /\
   bot_health (wisdom_of open_row ghost None) = Raise AssertionError /\
   bot_weapon (wisdom_of open_row ghost None) = Raise AssertionError /\
   lost_health (wisdom_of open_row ghost None) = Raise AssertionError /\
   will_pick_up_worse_weapon (wisdom_of open_row ghost None) = Raise AssertionError /\
   can_attack_player sample_cut_positions (wisdom_of open_row ghost None)
     = Raise AssertionError) /\
  (bot_facing (wisdom_of open_row blind None) = Raise KeyError /\
   bot_health (wisdom_of open_row blind None) = Raise KeyError /\
   bot_weapon (wisdom_of open_row blind None) = Raise KeyError /\
   lost_health (wisdom_of open_row blind None) = Raise KeyError /\
   will_pick_up_worse_weapon (wisdom_of open_row blind None) = Raise KeyError /\
   can_attack_player sample_cut_positions (wisdom_of open_row blind None)
     = Raise KeyError) /\
  get_state sample_cut_positions sample_hash ghost row_arena 7 =
    Ok (State.mk 3 1 0 5 0 false 0 3 (float_of_int 1) 7).
Proof.
  split; [ | split].
  - exact (proj1 (missing_occupant_fails_in_wisdom_only sample_cut_positions sample_hash
                    (wisdom_of open_row ghost None) ghost 7 eq_refl eq_refl)).
  - exact (proj1 (missing_occupant_fails_in_wisdom_only sample_cut_positions sample_hash
                    (wisdom_of open_row blind None) blind 7 eq_refl eq_refl)).
  - exact (proj2 (missing_occupant_fails_in_wisdom_only sample_cut_positions sample_hash
                    (wisdom_of open_row ghost None) ghost 7 eq_refl eq_refl)).
Defined.

(** C7, as stated, fails on [get_state]: the own cell of [ghost] carries no
    occupant, and [get_state] returns a state holding health 5, the code
    of facing up and the code of the knife. *)
Lemma get_state_substitutes_defaults :
  own_occupant ghost = None /\
  exists st,
    get_state sample_cut_positions sample_hash ghost row_arena 7 = Ok st /\
    State.health st = 5 /\
    State.facing st = FACING_TO_INT UP /\
    dict_get String.eqb WEAPON_TO_INT "knife" = Some (State.weapon st).
Proof.
  split; [reflexivity | ].
  eexists. split; [reflexivity | ]. repeat split.
Qed.

(** ** Weapons that are not in the catalog *)

Lemma bot_weapon_catalogued (self : Wisdom) (k : ChampionKnowledge)
  (c : ChampionDescription) :
  knowledge self = Some k -> own_occupant k = Some c ->
  bot_weapon self = dict_getitem String.eqb WEAPONS (name (weapon c)).
Proof.
  intros Hk Hc. unfold bot_weapon. now rewrite (bot_character_present self k c).
Qed.

Lemma any_better_loot_unrecognised (self : Wisdom) (own : Weapon)
  (tiles : list TileDescription) :
  bot_weapon self = Ok own ->
  (forall tile l, In tile tiles -> loot tile = Some l ->
                  dict_get String.eqb WEAPONS (name l) = None) ->
  any_better_loot self tiles = Ok false.
Proof.
  intros Hown. induction tiles as [ | tile tiles IH]; intros Hall; [reflexivity | ].
  cbn [any_better_loot]. destruct (loot tile) as [l | ] eqn:Hl.
  - rewrite (Hall tile l (or_introl eq_refl) Hl), Hown. cbn [bind].
    replace (weapon_ranking None >? weapon_ranking (Some own)) with false
      by now destruct own.
    apply IH. intros tile' l' Hin. apply Hall. now right.
  - apply IH. intros tile' l' Hin. apply Hall. now right.
Qed.

(** C6, as the code has it: the agent's own weapon is looked up with
    [WEAPONS[...]], so a name outside the catalog raises [KeyError]; loot
    is looked up with [WEAPONS.get], so a name outside the catalog gives
    [None], which [weapon_ranking] ranks 0: such loot ahead is compared as
    rank 0, and such loot in view is never better. *)
Theorem unrecognised_weapon_ranking (self : Wisdom) (k : ChampionKnowledge)
  (c : ChampionDescription) :
  knowledge self = Some k ->
  own_occupant k = Some c ->
  (dict_get String.eqb WEAPONS (name (weapon c)) = None ->
     bot_weapon self = Raise KeyError) /\
  (forall own tile l,
     dict_get String.eqb WEAPONS (name (weapon c)) = Some own ->
     dict_get Coords_eqb (visible_tiles k)
       (add_coords (position k) (Facing_value (facing c))) = Some tile ->
     loot tile = Some l ->
     dict_get String.eqb WEAPONS (name l) = None ->
     will_pick_up_worse_weapon self = Ok (0 <? weapon_ranking (Some own))) /\
  (forall own,
     dict_get String.eqb WEAPONS (name (weapon c)) = Some own ->
     (forall item l, In item (visible_tiles k) -> loot (snd item) = Some l ->
                     dict_get String.eqb WEAPONS (name l) = None) ->
     better_weapon_visible self = Ok false).
Proof.
  intros Hk Hc.
  pose proof (bot_weapon_catalogued self k c Hk Hc) as Hw.
  pose proof (bot_character_present self k c Hk Hc) as Hch.
  split; [ | split].
  - intros Hnone. rewrite Hw. unfold dict_getitem. now rewrite Hnone.
  - intros own tile l Hown Htile Hl Hnone.
    unfold will_pick_up_worse_weapon, bot_coords, bot_facing.
    rewrite Hk, Hch. cbn [attr_of bind]. unfold dict_getitem at 1.
    rewrite Htile. cbn [bind]. rewrite Hl, Hnone, Hw.
    unfold dict_getitem. rewrite Hown. reflexivity.
  - intros own Hown Hall. unfold better_weapon_visible. rewrite Hk. cbn [attr_of bind].
    apply any_better_loot_unrecognised with (own := own).
    + rewrite Hw. unfold dict_getitem. now rewrite Hown.
    + intros tile l Hin Hl. unfold dict_values in Hin. apply in_map_iff in Hin.
      destruct Hin as [item [<- Hin]]. now apply (Hall item l).
Qed.

Lemma unrecognised_weapon_ranking_witness :
  bot_weapon (wisdom_of open_row (scroll_ahead "spear") None) = Raise KeyError /\
  will_pick_up_worse_weapon (wisdom_of open_row (scroll_ahead "bow") None) = Ok true /\
  better_weapon_visible (wisdom_of open_row (scroll_ahead "knife") None) = Ok false.
Proof.
  split; [ | split].
  - exact (proj1 (unrecognised_weapon_ranking
                    (wisdom_of open_row (scroll_ahead "spear") None)
                    (scroll_ahead "spear") (champion 5 "spear" RIGHT) eq_refl eq_refl)
                 eq_refl).
  - exact (proj1 (proj2 (unrecognised_weapon_ranking
                    (wisdom_of open_row (scroll_ahead "bow") None)
                    (scroll_ahead "bow") (champion 5 "bow" RIGHT) eq_refl eq_refl))
                 Bow (ground (Some {| name := "scroll" |}) None) {| name := "scroll" |}
                 eq_refl eq_refl eq_refl eq_refl).
  - refine (proj2 (proj2 (unrecognised_weapon_ranking
                    (wisdom_of open_row (scroll_ahead "knife") None)
                    (scroll_ahead "knife") (champion 5 "knife" RIGHT) eq_refl eq_refl))
                 Knife eq_refl _).
    intros item l [<- | [<- | []]] Hl; [discriminate Hl | ].
    inversion Hl. reflexivity.
Defined.

(** C6, as stated, fails on loot: the scroll ahead is not in the catalog,
    and the two queries return without any error, the scroll counting as
    rank 0 (worse than the bow, not better than the knife). *)
Lemma unrecognised_loot_is_ranked_zero :
  dict_get String.eqb WEAPONS "scroll" = None /\
  will_pick_up_worse_weapon (wisdom_of open_row (scroll_ahead "bow") None) = Ok true /\
  better_weapon_visible (wisdom_of open_row (scroll_ahead "knife") None) = Ok false.
Proof. repeat split. Qed.

(** ** Lookups at computed cells *)

Lemma any_character_at_unoccupied (tiles : dict Coords TileDescription)
  (pre rest : list Coords) :
  Forall (unoccupied tiles) pre ->
  any_character_at tiles (pre ++ rest) = any_character_at tiles rest.
Proof.
  induction 1 as [ | c pre [tile [Ht Hc]] _ IH]; [reflexivity | ].
  cbn [app any_character_at]. unfold dict_getitem. rewrite Ht. cbn [bind].
  now rewrite Hc.
Qed.

Lemma any_character_at_hit (tiles : dict Coords TileDescription)
  (pre : list Coords) (cell : Coords) (post : list Coords) :
  Forall (unoccupied tiles) pre -> occupied tiles cell ->
  any_character_at tiles (pre ++ cell :: post) = Ok true.
Proof.
  intros Hpre [tile [Ht Hc]]. rewrite any_character_at_unoccupied by assumption.
  cbn [any_character_at]. unfold dict_getitem. rewrite Ht. cbn [bind].
  destruct (character tile); [reflexivity | now elim Hc].
Qed.

Lemma any_character_at_miss (tiles : dict Coords TileDescription)
  (pre : list Coords) (cell : Coords) (post : list Coords) :
  Forall (unoccupied tiles) pre -> dict_get Coords_eqb tiles cell = None ->
  any_character_at tiles (pre ++ cell :: post) = Raise KeyError.
Proof.
  intros Hpre Ht. rewrite any_character_at_unoccupied by assumption.
  cbn [any_character_at]. unfold dict_getitem. now rewrite Ht.
Qed.

Lemma any_character_at_none (tiles : dict Coords TileDescription) (cut : list Coords) :
  Forall (unoccupied tiles) cut -> any_character_at tiles cut = Ok false.
Proof.
  intros H. rewrite <- (app_nil_r cut). now rewrite any_character_at_unoccupied.
Qed.

Lemma any_character_at_stop (tiles : dict Coords TileDescription) (cut : list Coords) :
  scan_stop tiles cut (any_character_at tiles cut).
Proof.
  induction cut as [ | c cut IH]; [now constructor | ].
  cbn [any_character_at]. unfold dict_getitem.
  destruct (dict_get Coords_eqb tiles c) as [tile | ] eqn:Ht.
  - cbn [bind]. destruct (character tile) as [ch | ] eqn:Hc; cbn [is_some].
    + apply (scan_hit tiles (c :: cut) [] c cut); [reflexivity | constructor | ].
      exists tile. split; [assumption | congruence].
    + assert (Hu : unoccupied tiles c) by (exists tile; auto).
      inversion IH as [Hall Hr | pre cell post Hcut Hpre Hocc Hr
                      | pre cell post Hcut Hpre Hnone Hr].
      * apply scan_through. now constructor.
      * apply (scan_hit tiles (c :: cut) (c :: pre) cell post);
          [now rewrite Hcut | now constructor | assumption].
      * apply (scan_miss tiles (c :: cut) (c :: pre) cell post);
          [now rewrite Hcut | now constructor | assumption].
  - apply (scan_miss tiles (c :: cut) [] c cut); [reflexivity | constructor | assumption].
Qed.

Lemma scan_stop_unique (tiles : dict Coords TileDescription) (cut : list Coords)
  (r : result bool) :
  scan_stop tiles cut r -> any_character_at tiles cut = r.
Proof.
  intros [Hall | pre cell post -> Hpre Hocc | pre cell post -> Hpre Hnone].
  - now apply any_character_at_none.
  - now apply any_character_at_hit.
  - now apply any_character_at_miss.
Qed.

(** C10, as the code has it, with the own occupant present and its weapon
    in the catalog: [will_pick_up_worse_weapon] raises [KeyError] when the
    cell ahead is not visible and returns a boolean when it is;
    [can_attack_player] looks the cells of the footprint up in order and
    stops at the first occupied one, so it returns true there whatever
    follows, returns false when every cell is visible and unoccupied, and
    raises [KeyError] when a cell that is not visible comes before any
    occupied one; no other outcome exists. *)
Theorem lookups_at_computed_cells
  (cut_positions : Weapon -> Terrain -> Coords -> Facing -> list Coords)
  (self : Wisdom) (k : ChampionKnowledge) (c : ChampionDescription) (own : Weapon) :
  knowledge self = Some k ->
  own_occupant k = Some c ->
  dict_get String.eqb WEAPONS (name (weapon c)) = Some own ->
  let ahead := add_coords (position k) (Facing_value (facing c)) in
  let cut := cut_positions own (Arena.terrain (arena self)) (position k) (facing c) in
  (dict_get Coords_eqb (visible_tiles k) ahead = None ->
     will_pick_up_worse_weapon self = Raise KeyError) /\
  (dict_get Coords_eqb (visible_tiles k) ahead <> None ->
     exists b, will_pick_up_worse_weapon self = Ok b) /\
  scan_stop (visible_tiles k) cut (can_attack_player cut_positions self) /\
  (forall r, scan_stop (visible_tiles k) cut r ->
             can_attack_player cut_positions self = r).
Proof.
  intros Hk Hc Hown ahead cut.
  pose proof (bot_character_present self k c Hk Hc) as Hch.
  assert (Hw : bot_weapon self = Ok own).
  { rewrite (bot_weapon_catalogued self k c Hk Hc). unfold dict_getitem. now rewrite Hown. }
  assert (Hcan : can_attack_player cut_positions self =
                 any_character_at (visible_tiles k) cut).
  { unfold can_attack_player, bot_coords, bot_facing. rewrite Hw, Hk, Hch. reflexivity. }
  assert (Hpick : will_pick_up_worse_weapon self =
                  (tile <- dict_getitem Coords_eqb (visible_tiles k) ahead ;;
                   match loot tile with
                   | None => Ok false
                   | Some l =>
                       Ok (weapon_ranking (dict_get String.eqb WEAPONS (name l))
                           <? weapon_ranking (Some own))
                   end)).
  { unfold will_pick_up_worse_weapon, bot_coords, bot_facing. rewrite Hk, Hch.
    cbn [attr_of bind]. fold ahead.
    destruct (dict_getitem Coords_eqb (visible_tiles k) ahead) as [tile | e];
      [ | reflexivity].
    cbn [bind]. destruct (loot tile); [ | reflexivity]. now rewrite Hw. }
  repeat split.
  - intros Hnone. rewrite Hpick. unfold dict_getitem. now rewrite Hnone.
  - intros Hsome. rewrite Hpick. unfold dict_getitem.
    destruct (dict_get Coords_eqb (visible_tiles k) ahead) as [tile | ];
      [ | now elim Hsome].
    cbn [bind]. destruct (loot tile); eauto.
  - rewrite Hcan. apply any_character_at_stop.
  - intros r Hr. rewrite Hcan. now apply scan_stop_unique.
Qed.

Lemma lookups_at_computed_cells_witness :
  will_pick_up_worse_weapon (wisdom_of open_row (alone 5 "sword" RIGHT) None)
    = Raise KeyError /\
  can_attack_player sample_cut_positions (wisdom_of open_row (rival_ahead "sword") None)
    = Ok true.
Proof.
  split.
  - exact (proj1 (lookups_at_computed_cells sample_cut_positions
                    (wisdom_of open_row (alone 5 "sword" RIGHT) None)
                    (alone 5 "sword" RIGHT) (champion 5 "sword" RIGHT) Sword
                    eq_refl eq_refl eq_refl)
                 eq_refl).
  - refine (proj2 (proj2 (proj2 (lookups_at_computed_cells sample_cut_positions
                    (wisdom_of open_row (rival_ahead "sword") None)
                    (rival_ahead "sword") (champion 5 "sword" RIGHT) Sword
                    eq_refl eq_refl eq_refl)))
                 (Ok true) _).
    apply (scan_hit _ _ [] (1, 0) [(2, 0)]); [reflexivity | constructor | ].
    eexists. split; [reflexivity | discriminate].
Defined.

(** C10, as stated, fails on [can_attack_player]: the cell (2, 0) of the
    sword's footprint is not visible, and the query returns true all the
    same, the rival on (1, 0) having ended the scan. *)
Lemma can_attack_player_ignores_cells_behind_a_hit :
  In (2, 0) (sample_cut_positions Sword row_terrain (0, 0) RIGHT) /\
  dict_get Coords_eqb (visible_tiles (rival_ahead "sword")) (2, 0) = None /\
  can_attack_player sample_cut_positions (wisdom_of open_row (rival_ahead "sword") None)
    = Ok true.
Proof.
  split; [right; left; reflexivity | ]. split; reflexivity.
Qed.

(** ** The relative offsets of the visible rivals *)

Lemma list_setitem_at {A : Type} (pre : list A) (a v : A) (rest : list A) :
  list_setitem (pre ++ a :: rest) (List.length pre) v = Ok (pre ++ v :: rest).
Proof.
  induction pre as [ | b pre IH]; [reflexivity | ].
  cbn [app List.length list_setitem]. now rewrite IH.
Qed.

Lemma list_setitem_past {A : Type} (l : list A) (i : nat) (v : A) :
  (List.length l <= i)%nat -> list_setitem l i v = Raise IndexError.
Proof.
  revert i. induction l as [ | a l IH]; intros i Hi; [now destruct i | ].
  destruct i as [ | i]; [cbn in Hi; lia | ].
  cbn [list_setitem]. rewrite IH; [reflexivity | cbn in Hi; lia].
Qed.

Lemma list_setitem_within {A : Type} (l : list A) (i : nat) (v : A) :
  (i < List.length l)%nat ->
  exists l', list_setitem l i v = Ok l' /\ List.length l' = List.length l.
Proof.
  revert i. induction l as [ | a l IH]; intros i Hi; [cbn in Hi; lia | ].
  destruct i as [ | i]; [now eexists | ].
  destruct (IH i) as [l' [Hl' Hlen]]; [cbn in Hi; lia | ].
  exists (a :: l'). cbn [list_setitem]. rewrite Hl'. cbn. now rewrite Hlen.
Qed.

Lemma fill_offsets_fits (offsets : list Coords) :
  forall (i n : nat) (pre : list Z),
    List.length pre = (2 * i)%nat ->
    fill_offsets offsets i (pre ++ repeat 0 (2 * (List.length offsets + n))) =
      Ok (pre ++ flatten_offsets offsets ++ repeat 0 (2 * n)).
Proof.
  induction offsets as [ | [x y] offsets IH]; intros i n pre Hpre; [reflexivity | ].
  cbn [fill_offsets List.length].
  replace (2 * (S (List.length offsets) + n))%nat
    with (S (S (2 * (List.length offsets + n)))) by lia.
  cbn [repeat]. rewrite <- Hpre, list_setitem_at. cbn [bind].
  replace (pre ++ x :: 0 :: repeat 0 (2 * (List.length offsets + n)))
    with ((pre ++ [x]) ++ 0 :: repeat 0 (2 * (List.length offsets + n)))
    by now rewrite <- app_assoc.
  replace (List.length pre + 1)%nat with (List.length (pre ++ [x]))
    by now rewrite length_app.
  rewrite list_setitem_at. cbn [bind].
  replace ((pre ++ [x]) ++ y :: repeat 0 (2 * (List.length offsets + n)))
    with ((pre ++ [x; y]) ++ repeat 0 (2 * (List.length offsets + n)))
    by now rewrite <- !app_assoc.
  rewrite IH by (rewrite length_app; cbn; lia).
  cbn [flatten_offsets flat_map fst snd]. now rewrite <- !app_assoc.
Qed.

Lemma fill_offsets_overflow (offsets : list Coords) :
  forall (i : nat) (res : list Z),
    List.length res = 10%nat -> (i <= 5 < i + List.length offsets)%nat ->
    fill_offsets offsets i res = Raise IndexError.
Proof.
  induction offsets as [ | [x y] offsets IH]; intros i res Hres Hi; [cbn in Hi; lia | ].
  cbn [fill_offsets]. destruct (Nat.eq_dec i 5) as [-> | Hne].
  - rewrite list_setitem_past by lia. reflexivity.
  - destruct (list_setitem_within res (2 * i) x) as [res1 [-> Hlen1]]; [lia | ].
    cbn [bind].
    destruct (list_setitem_within res1 (2 * i + 1) y) as [res2 [-> Hlen2]]; [lia | ].
    cbn [bind]. apply IH; [lia | cbn in Hi; lia].
Qed.

Lemma relative_enemies_positions_unfold (self : Wisdom) (k : ChampionKnowledge) :
  knowledge self = Some k ->
  relative_enemies_positions self = fill_offsets (enemy_offsets k) 0 (repeat 0 10).
Proof.
  intros Hk. unfold relative_enemies_positions, bot_coords, enemy_offsets.
  rewrite Hk. cbn [attr_of bind]. now rewrite map_map.
Qed.

(** X28: with no more rivals in view than the five the list has room
    for, [relative_enemies_positions] returns their offsets in the
    iteration order of the visible-tiles map, padded with zeros to
    length 10. *)
Theorem relative_enemies_positions_in_map_order (self : Wisdom)
  (k : ChampionKnowledge) :
  knowledge self = Some k ->
  (List.length (enemy_offsets k) <= capacity)%nat ->
  relative_enemies_positions self =
    Ok (flatten_offsets (enemy_offsets k) ++
        repeat 0 (2 * (capacity - List.length (enemy_offsets k)))).
Proof.
  intros Hk Hcap. rewrite (relative_enemies_positions_unfold self k Hk).
  unfold capacity in *.
  pose proof (fill_offsets_fits (enemy_offsets k) 0
                (5 - List.length (enemy_offsets k)) [] eq_refl) as H.
  cbn [app] in H. rewrite <- H. do 2 f_equal. lia.
Qed.

Lemma relative_enemies_positions_in_map_order_witness :
  relative_enemies_positions (crowd_wisdom [(2, 0); (2, 1)]) =
    Ok [0; -2; 0; -1; 0; 0; 0; 0; 0; 0].
Proof.
  apply (relative_enemies_positions_in_map_order
           (crowd_wisdom [(2, 0); (2, 1)])
           (crowd [(2, 0); (2, 1)]) eq_refl).
  vm_compute. lia.
Defined.

(** With more rivals in view than that, the sixth one is written past the
    end of the list. *)
Lemma relative_enemies_positions_overflow (self : Wisdom) (k : ChampionKnowledge) :
  knowledge self = Some k ->
  (capacity < List.length (enemy_offsets k))%nat ->
  relative_enemies_positions self = Raise IndexError.
Proof.
  intros Hk Hcap. rewrite (relative_enemies_positions_unfold self k Hk).
  apply fill_offsets_overflow; [reflexivity | unfold capacity in Hcap; lia].
Qed.

(** The slots follow the map, not the distance: the farther rival comes
    first in the map and first in the list. *)
Lemma relative_enemies_positions_not_by_distance :
  relative_enemies_positions (crowd_wisdom [(2, 0); (2, 1)])
    <> Ok (spec_relative_offsets (crowd [(2, 0); (2, 1)])).
Proof. discriminate. Qed.

(** C4: six rivals are in view, more than the five the list has room
    for. The five nearest offsets in ascending distance are what is asked
    for; the loop writes the sixth offset past the end of the list and
    [relative_enemies_positions] raises [IndexError], so that no list
    comes back at all. *)
Lemma relative_enemies_positions_six_rivals :
  (capacity < List.length (enemy_offsets (crowd six_cells)))%nat /\
  relative_enemies_positions (crowd_wisdom six_cells)
    = Raise IndexError /\
  relative_enemies_positions (crowd_wisdom six_cells)
    <> Ok (spec_relative_offsets (crowd six_cells)).
Proof.
  split; [cbn; unfold capacity; lia | ]. split; [reflexivity | discriminate].
Qed.

(** ** The path cost *)

Lemma grid_node_inside (g : Grid) (p : Coords) :
  grid_lookup g p <> None -> grid_node g (fst p) (snd p) = Ok p.
Proof.
  destruct p as [px py]. unfold grid_node. cbn [fst snd].
  destruct (grid_lookup g (px, py)); [reflexivity | intros H; now elim H].
Qed.

(** A path of a single cell costs nothing, and neither does an empty one. *)
Lemma walk_path_short (f : Facing) (path : list Coords) :
  (List.length path <= 1)%nat -> walk_path f path 0 = Ok 0.
Proof.
  destruct path as [ | c [ | c' path]]; cbn; intros H; [reflexivity | reflexivity | lia].
Qed.

Section AnyFinder.
Variable find_path : Coords -> Coords -> Grid -> result (list Coords).

(** Whenever the finder answers with a path of at most one cell, the
    length of the path found is 0. *)
Lemma find_path_len_short (self : Wisdom) (p goal : Coords) (f : Facing)
  (path : list Coords) :
  bot_coords self = Ok p ->
  bot_facing self = Ok f ->
  grid_lookup (grid self) p <> None ->
  grid_lookup (grid self) goal <> None ->
  find_path p goal (grid self) = Ok path ->
  (List.length path <= 1)%nat ->
  find_path_len find_path self goal = Ok 0.
Proof.
  intros Hp Hf Hin Hgoal Hpath Hlen. unfold find_path_len.
  rewrite Hp. cbn [bind]. rewrite (grid_node_inside _ p Hin). cbn [bind].
  rewrite (grid_node_inside _ goal Hgoal). cbn [bind].
  rewrite Hpath. cbn [bind]. rewrite Hf. cbn [bind].
  now apply walk_path_short.
Qed.

(** The sentinel stands for an exception only: an empty path is no
    exception, and the distance it gives is 0. *)
Lemma distance_to_menhir_empty_path (self : Wisdom) (p : Coords) (f : Facing) :
  bot_coords self = Ok p ->
  bot_facing self = Ok f ->
  grid_lookup (grid self) p <> None ->
  grid_lookup (grid self) (Arena.menhir_position (arena self)) <> None ->
  find_path p (Arena.menhir_position (arena self)) (grid self) = Ok [] ->
  distance_to_menhir find_path self = 0.
Proof.
  intros Hp Hf Hin Hgoal Hpath. unfold distance_to_menhir.
  rewrite (find_path_len_short self p _ f [] Hp Hf Hin Hgoal Hpath); [reflexivity | ].
  cbn. lia.
Qed.

Lemma distance_to_menhir_sentinel (self : Wisdom) (e : exn) :
  find_path_len find_path self (Arena.menhir_position (arena self)) = Raise e ->
  distance_to_menhir find_path self = 1000000.
Proof. intros H. unfold distance_to_menhir. now rewrite H. Qed.
End AnyFinder.

Lemma dijkstra_find_path_here (g : Grid) (p : Coords) :
  dijkstra_find_path p p g = Ok [p].
Proof.
  unfold dijkstra_find_path. cbn [search]. now rewrite Coords_eqb_refl.
Qed.

(** C8: for an agent standing on a cell [p] of the grid and facing [f],
    the path found from [p] to [p] is the single cell [p], and the length
    of the path is 0. *)
Theorem find_path_len_start_is_goal (self : Wisdom) (p : Coords) (f : Facing) :
  bot_coords self = Ok p ->
  bot_facing self = Ok f ->
  grid_lookup (grid self) p <> None ->
  dijkstra_find_path p p (grid self) = Ok [p] /\
  List.length [p] = 1%nat /\
  walk_path f [p] 0 = Ok 0 /\
  find_path_len dijkstra_find_path self p = Ok 0.
Proof.
  intros Hp Hf Hin. split; [apply dijkstra_find_path_here | ].
  split; [reflexivity | ]. split; [reflexivity | ].
  apply (find_path_len_short dijkstra_find_path self p p f [p]); auto.
  apply dijkstra_find_path_here.
Qed.

Lemma find_path_len_start_is_goal_witness :
  dijkstra_find_path (0, 0) (0, 0) walled_row = Ok [(0, 0)] /\
  List.length [(0, 0)] = 1%nat /\
  walk_path LEFT [(0, 0)] 0 = Ok 0 /\
  find_path_len dijkstra_find_path (wisdom_of walled_row (alone 5 "knife" LEFT) None)
    (0, 0) = Ok 0.
Proof.
  apply (find_path_len_start_is_goal
           (wisdom_of walled_row (alone 5 "knife" LEFT) None) (0, 0) LEFT
           eq_refl eq_refl).
  discriminate.
Defined.

(** The scenario of the specification: on the open row, facing up, the
    menhir two cells to the right. The rule of the specification gives
    (1 + 1) + (0 + 1) = 3; the path length computed is 4. *)
Lemma find_path_len_open_row :
  find_path_len dijkstra_find_path (wisdom_of open_row (alone 5 "knife" UP) None) (2, 0)
    = Ok 4 /\
  (min_rotations UP RIGHT + 1) + (min_rotations RIGHT RIGHT + 1) = 3.
Proof. split; reflexivity. Qed.

(** No walk leads from (0, 0) past the blocked cell of [walled_row]. *)
Lemma walled_row_stuck (a c : Coords) :
  connected walled_row a c -> a = (0, 0) -> c = (0, 0).
Proof.
  induction 1 as [c | a b c [f Hf] Hw _ IH]; intros Ha; [assumption | ].
  subst a. exfalso.
  assert (Hb : b = Facing_value f).
  { rewrite <- Hf. destruct b as [bx b_y]. unfold sub_coords. cbn [fst snd].
    f_equal; lia. }
  subst b. destruct f; discriminate Hw.
Qed.

(** C2: on [walled_row] no walk leads from the agent's cell (0, 0) to the
    menhir on (2, 0); the finder answers with the empty path, the loop of
    [find_path_len] has nothing to add up, and [distance_to_menhir]
    returns 0, not the sentinel 1000000 it keeps for exceptions. *)
Theorem distance_to_menhir_unreachable_is_zero :
  ~ connected walled_row (0, 0) (2, 0) /\
  dijkstra_find_path (0, 0) (2, 0) walled_row = Ok [] /\
  find_path_len dijkstra_find_path (wisdom_of walled_row (alone 5 "knife" UP) None)
    (2, 0) = Ok 0 /\
  distance_to_menhir dijkstra_find_path (wisdom_of walled_row (alone 5 "knife" UP) None)
    = 0.
Proof.
  split.
  - intros H. apply walled_row_stuck in H; [discriminate H | reflexivity].
  - repeat split.
Qed.

(** ** The finder and the walks of the grid *)

Lemma connected_snoc (g : Grid) (a b c : Coords) :
  connected g a b -> cardinally_adjacent b c -> walkable g c = true ->
  connected g a c.
Proof.
  induction 1 as [b | a m b Hadj Hw _ IH]; intros Hbc Hc.
  - apply (connected_step g b c c); [assumption | assumption | constructor].
  - apply (connected_step g a m c); auto.
Qed.

Lemma trail_connected (g : Grid) (start : Coords) (walked : list Coords) :
  trail g start walked ->
  exists node rest, walked = node :: rest /\ connected g start node.
Proof.
  induction 1 as [ | n node walked _ [node' [rest [Heq Hconn]]] Hadj Hw].
  - exists start, []. split; [reflexivity | constructor].
  - inversion Heq; subst. exists n, (node' :: rest).
    split; [reflexivity | ]. now apply (connected_snoc g start node' n).
Qed.

Lemma neighbors_adjacent (g : Grid) (c n : Coords) :
  In n (neighbors g c) -> cardinally_adjacent c n /\ walkable g n = true.
Proof.
  unfold neighbors. rewrite filter_In. intros [Hin Hw]. split; [ | exact Hw].
  destruct c as [cx cy]. cbn [fst snd] in Hin.
  destruct Hin as [<- | [<- | [<- | [<- | []]]]];
    [exists UP | exists RIGHT | exists DOWN | exists LEFT];
    unfold sub_coords; cbn [fst snd Facing_value]; f_equal; lia.
Qed.

(** What the search returns is empty or a trail that ends on the goal. *)
Lemma search_trail (g : Grid) (start goal : Coords) (fuel : nat) :
  forall (open_list : list (list Coords)) (opened : list Coords),
    Forall (trail g start) open_list ->
    search fuel g goal open_list opened = [] \/
    exists walked,
      trail g start (goal :: walked) /\
      search fuel g goal open_list opened = rev (goal :: walked).
Proof.
  induction fuel as [ | fuel IH]; intros open_list opened Hall; [now left | ].
  cbn [search]. destruct open_list as [ | walked open_list]; [now left | ].
  inversion Hall as [ | ? ? Hwalked Hrest]; subst.
  destruct walked as [ | node walked]; [now apply IH | ].
  destruct (Coords_eqb node goal) eqn:Hgoal.
  - apply Coords_eqb_eq in Hgoal. subst node. right. now exists walked.
  - apply IH. apply Forall_app. split; [assumption | ].
    apply Forall_forall. intros entry Hin. apply in_map_iff in Hin.
    destruct Hin as [n [<- Hn]]. apply filter_In in Hn. destruct Hn as [Hn _].
    apply neighbors_adjacent in Hn. destruct Hn as [Hadj Hw].
    now constructor.
Qed.

Lemma dijkstra_find_path_trail (g : Grid) (start goal : Coords) :
  dijkstra_find_path start goal g = Ok [] \/
  exists walked,
    trail g start (goal :: walked) /\
    dijkstra_find_path start goal g = Ok (rev (goal :: walked)).
Proof.
  unfold dijkstra_find_path.
  destruct (search_trail g start goal (S (S (grid_size g))) [[start]] [start])
    as [-> | [walked [Ht ->]]].
  - repeat constructor.
  - now left.
  - right. now exists walked.
Qed.

(** The finder finds no path where there is none. *)
Lemma dijkstra_find_path_unreachable (g : Grid) (start goal : Coords) :
  ~ connected g start goal -> dijkstra_find_path start goal g = Ok [].
Proof.
  intros Hn. destruct (dijkstra_find_path_trail g start goal)
    as [H | [walked [Ht _]]]; [exact H | ].
  exfalso. apply Hn. apply trail_connected in Ht.
  destruct Ht as [node [rest [Heq Hconn]]]. inversion Heq; subst. exact Hconn.
Qed.

(** X9: whatever the grid, an agent that stands on it with the menhir out
    of reach of any walk is told a distance of 0 (the finder being the one
    modelled above, which answers with the empty path). *)
Lemma distance_to_menhir_unreachable (self : Wisdom) (p : Coords) (f : Facing) :
  bot_coords self = Ok p ->
  bot_facing self = Ok f ->
  grid_lookup (grid self) p <> None ->
  grid_lookup (grid self) (Arena.menhir_position (arena self)) <> None ->
  ~ connected (grid self) p (Arena.menhir_position (arena self)) ->
  distance_to_menhir dijkstra_find_path self = 0.
Proof.
  intros Hp Hf Hin Hgoal Hn.
  apply (distance_to_menhir_empty_path dijkstra_find_path self p f); auto.
  now apply dijkstra_find_path_unreachable.
Qed.

(** The cost of a walk of n steps lies between n and 3n, so below the
    sentinel on every grid a path of which has fewer than 333334 cells. *)
Lemma walk_path_bounds (path : list Coords) :
  forall (f : Facing) (steps : Z),
    is_walk path ->
    exists n, walk_path f path steps = Ok n /\
              steps + Z.of_nat (List.length path - 1) <= n
                <= steps + 3 * Z.of_nat (List.length path - 1).
Proof.
  induction path as [ | a path IH]; intros f steps Hwalk.
  - exists steps. cbn. split; [reflexivity | lia].
  - destruct path as [ | b path].
    + exists steps. cbn. split; [reflexivity | lia].
    + destruct Hwalk as [Hadj Hwalk].
      destruct (move_one_tile_range f a b Hadj) as [cost [e [Hmove [Hcost _]]]].
      destruct (IH e (steps + cost) Hwalk) as [n [Hn Hbounds]].
      exists n. cbn [walk_path]. rewrite Hmove. cbn [bind]. split; [exact Hn | ].
      cbn [List.length] in *. lia.
Qed.

Lemma walk_path_below_sentinel (path : list Coords) (f : Facing) (n : Z) :
  is_walk path -> Z.of_nat (List.length path) <= 333334 ->
  walk_path f path 0 = Ok n -> 0 <= n < 1000000.
Proof.
  intros Hwalk Hlen Hn.
  destruct (walk_path_bounds path f 0 Hwalk) as [n' [Hn' Hbounds]].
  rewrite Hn in Hn'. inversion Hn'; subst. lia.
Qed.

(** ** The distance field of the state *)

(** C3, as the code has it: the distance field of the state [get_state]
    returns is the Euclidean distance between the own position and the
    menhir: the square root, in floating point, of dx^2 + dy^2. With the
    own weapon (the knife, without an occupant) in the catalog and no
    footprint cell scanned missing from the view, [get_state] returns when
    dx^2 + dy^2 is below 2^64 and raises [TypeError] from [np.sqrt]
    otherwise. *)
Theorem get_state_distance_is_euclidean
  (cut_positions : Weapon -> Terrain -> Coords -> Facing -> list Coords)
  (hash : string -> Z) (k : ChampionKnowledge) (a : Arena.t) (tick : Z) :
  (forall w b,
     dict_get String.eqb WEAPONS (own_weapon_name k) = Some w ->
     any_character_at (visible_tiles k)
       (cut_positions w (Arena.terrain a) (position k) (own_facing k)) = Ok b ->
     (squared_distance k a < 2 ^ 64 ->
        exists st, get_state cut_positions hash k a tick = Ok st) /\
     (2 ^ 64 <= squared_distance k a ->
        get_state cut_positions hash k a tick = Raise TypeError)) /\
  (forall st,
     get_state cut_positions hash k a tick = Ok st ->
     squared_distance k a < 2 ^ 64 /\
     State.distance_to_menhir st = PrimFloat.sqrt (float_of_int (squared_distance k a))).
Proof.
  split.
  - intros w b Hw Hscan.
    destruct (get_state_unfold cut_positions hash k a tick w b Hw Hscan)
      as [code [_ ->]].
    split; intros Hd.
    + pose proof (squared_distance_nonneg k a) as Hpos.
      rewrite (np_sqrt_fits (squared_distance k a) (conj Hpos Hd)).
      cbn [bind]. eauto.
    + rewrite (np_sqrt_too_large _ Hd). reflexivity.
  - intros st H.
    destruct (get_state_returns cut_positions hash k a tick st H) as [w [b [Hw Hscan]]].
    destruct (get_state_unfold cut_positions hash k a tick w b Hw Hscan)
      as [code [_ Heq]].
    rewrite Heq in H. clear Heq.
    destruct (Z.lt_ge_cases (squared_distance k a) (2 ^ 64)) as [Hd | Hd].
    + split; [exact Hd | ].
      pose proof (squared_distance_nonneg k a) as Hpos.
      rewrite (np_sqrt_fits (squared_distance k a) (conj Hpos Hd)) in H.
      cbn [bind] in H. injection H as <-. reflexivity.
    + rewrite (np_sqrt_too_large _ Hd) in H. discriminate H.
Qed.

Lemma get_state_distance_is_euclidean_witness :
  (exists st,
     get_state sample_cut_positions sample_hash (alone 5 "knife" LEFT) row_arena 7 = Ok st /\
     State.distance_to_menhir st = PrimFloat.sqrt (float_of_int 4)) /\
  get_state sample_cut_positions sample_hash (alone 5 "knife" LEFT) far_arena 7
    = Raise TypeError.
Proof.
  split.
  - destruct (get_state_distance_is_euclidean sample_cut_positions sample_hash
                (alone 5 "knife" LEFT) row_arena 7) as [Hreturns Hfield].
    destruct (proj1 (Hreturns Knife false eq_refl eq_refl) eq_refl) as [st Hst].
    exists st. split; [exact Hst | exact (proj2 (Hfield st Hst))].
  - apply (proj2 (proj1 (get_state_distance_is_euclidean sample_cut_positions sample_hash
                           (alone 5 "knife" LEFT) far_arena 7)
                        Knife false eq_refl eq_refl)).
    discriminate.
Defined.

(** C3, as stated, fails: on the open row, the agent on (0, 0) facing left
    and the menhir on (2, 0), the distance field is 2.0 while the path
    cost is 4 (two rotations, a move, a move). *)
Lemma get_state_distance_is_not_path_cost :
  distance_to_menhir dijkstra_find_path (wisdom_of open_row (alone 5 "knife" LEFT) None)
    = 4 /\
  exists st,
    get_state sample_cut_positions sample_hash (alone 5 "knife" LEFT) row_arena 7 = Ok st /\
    State.distance_to_menhir st = float_of_int 2 /\
    PrimFloat.eqb (State.distance_to_menhir st)
      (float_of_int
         (distance_to_menhir dijkstra_find_path
            (wisdom_of open_row (alone 5 "knife" LEFT) None))) = false.
Proof.
  split; [reflexivity | ].
  eexists. split; [reflexivity | ]. split; reflexivity.
Qed.

(** ** More on the action-cost model *)

Lemma move_one_tile_not_cardinal_witness :
  move_one_tile UP (0, 0) (1, 1) = Raise ValueError /\
  move_one_tile UP (0, 0) (0, 0) = Raise ValueError.
Proof.
  split.
  - apply (move_one_tile_not_cardinal UP (0, 0) (1, 1)).
    intros [f Hf]. destruct f; discriminate Hf.
  - apply (move_one_tile_not_cardinal UP (0, 0) (0, 0)).
    intros [f Hf]. destruct f; discriminate Hf.
Defined.

Lemma sub_add_coords (a d : Coords) : sub_coords (add_coords a d) a = d.
Proof.
  destruct a as [ax ay], d as [dx dy]. unfold sub_coords, add_coords. cbn [fst snd].
  f_equal; lia.
Qed.

(** X1: on a cardinal step [move_one_tile] returns a cost between 1 and 3
    and the facing of the step, whatever the starting facing; the cost is
    1 exactly when the agent already faces that way. *)
Theorem move_one_tile_step (f : Facing) (from to : Coords) :
  cardinally_adjacent from to ->
  exists cost e,
    move_one_tile f from to = Ok (cost, e) /\
    1 <= cost <= 3 /\
    Facing_value e = sub_coords to from /\
    (cost = 1 <-> f = e).
Proof.
  intros [e He]. eexists _, e. split; [now apply move_one_tile_cost | ].
  split; [destruct f, e; cbn; lia | ]. split; [now symmetry | ].
  destruct f, e; cbn; split; intros H; try reflexivity; try discriminate H.
Qed.

Lemma move_one_tile_step_witness :
  exists cost e,
    move_one_tile LEFT (3, 4) (3, 3) = Ok (cost, e) /\
    1 <= cost <= 3 /\
    Facing_value e = sub_coords (3, 3) (3, 4) /\
    (cost = 1 <-> LEFT = e).
Proof.
  apply (move_one_tile_step LEFT (3, 4) (3, 3)). exists UP. reflexivity.
Defined.

(** X3: the cost of a step by the turn it asks for: 1 straight ahead, 2
    to the left, 3 to the right, 3 backwards. *)
Theorem move_one_tile_turn_costs (f : Facing) (from : Coords) :
  move_one_tile f from (add_coords from (Facing_value f)) = Ok (1, f) /\
  move_one_tile f from (add_coords from (Facing_value (turn_left f)))
    = Ok (2, turn_left f) /\
  move_one_tile f from (add_coords from (Facing_value (turn_right f)))
    = Ok (3, turn_right f) /\
  move_one_tile f from (add_coords from (Facing_value (turn_left (turn_left f))))
    = Ok (3, turn_left (turn_left f)).
Proof.
  repeat split;
    (rewrite (move_one_tile_cost f _ from) by apply sub_add_coords);
    destruct f; reflexivity.
Qed.

(** X4: the cost and the facing depend on the step, not on where it is
    taken: moving both cells by the same offset changes nothing. *)
Theorem move_one_tile_translate (f : Facing) (from to d : Coords) :
  move_one_tile f (add_coords from d) (add_coords to d) = move_one_tile f from to.
Proof.
  unfold move_one_tile.
  replace (sub_coords (add_coords to d) (add_coords from d)) with (sub_coords to from);
    [reflexivity | ].
  destruct from, to, d. unfold sub_coords, add_coords. cbn [fst snd]. f_equal; lia.
Qed.

(** ** More on the loop of [find_path_len] *)

Lemma move_one_tile_returns (f : Facing) (a b : Coords) (cost : Z) (e : Facing) :
  move_one_tile f a b = Ok (cost, e) -> cardinally_adjacent a b.
Proof.
  unfold move_one_tile. intros H.
  destruct (Facing_of_value (sub_coords b a)) as [e' | ] eqn:E; [ | discriminate H].
  exists e'. now apply Facing_of_value_inv.
Qed.

Lemma move_one_tile_raises (f : Facing) (a b : Coords) (x : exn) :
  move_one_tile f a b = Raise x -> x = ValueError /\ ~ cardinally_adjacent a b.
Proof.
  intros H. split.
  - unfold move_one_tile, Facing_of_value in H.
    repeat match type of H with
           | context [if ?c then _ else _] => destruct c; [discriminate H | ]
           end.
    cbn in H. congruence.
  - intros Hadj. destruct (move_one_tile_range f a b Hadj) as [cost [e [Hmove _]]].
    rewrite Hmove in H. discriminate H.
Qed.

(** X5: the loop of [find_path_len] adds a path up exactly when the path
    is a walk, consecutive cells one cardinal step apart; on any other
    path it raises [ValueError]. *)
Theorem walk_path_returns_iff_walk (path : list Coords) (f : Facing) (steps : Z) :
  ((exists n, walk_path f path steps = Ok n) <-> is_walk path) /\
  (~ is_walk path -> walk_path f path steps = Raise ValueError).
Proof.
  revert f steps. induction path as [ | a path IH]; intros f steps.
  - cbn. split; [split; eauto | intros H; now elim H].
  - destruct path as [ | b path].
    + cbn. split; [split; eauto | intros H; now elim H].
    + cbn [walk_path is_walk].
      destruct (move_one_tile f a b) as [[cost e] | x] eqn:Hmove; cbn [bind].
      * pose proof (move_one_tile_returns f a b cost e Hmove) as Hadj.
        destruct (IH e (steps + cost)) as [Hiff Hraise]. split.
        -- split; [intros Hn; split; [exact Hadj | now apply Hiff]
                  | intros [_ Hw]; now apply Hiff].
        -- intros Hn. apply Hraise. intros Hw. apply Hn. now split.
      * destruct (move_one_tile_raises f a b x Hmove) as [-> Hnadj]. split.
        -- split; [intros [n Hn]; discriminate Hn | intros [Hadj _]; now elim Hnadj].
        -- reflexivity.
Qed.

Lemma walk_path_returns_iff_walk_witness :
  walk_path UP [(0, 0); (1, 0); (1, 2)] 0 = Raise ValueError.
Proof.
  apply (proj2 (walk_path_returns_iff_walk [(0, 0); (1, 0); (1, 2)] UP 0)).
  intros [_ [[f Hf] _]]. destruct f; discriminate Hf.
Defined.

Lemma walk_path_step (f : Facing) (a b : Coords) (rest : list Coords) (steps : Z) :
  walk_path f (a :: b :: rest) steps =
    ('(actions, f') <- move_one_tile f a b ;; walk_path f' (b :: rest) (steps + actions)).
Proof. reflexivity. Qed.

Lemma straight_head (a : Coords) (e : Facing) (k : nat) :
  exists rest, straight a e k = a :: rest.
Proof. destruct k; cbn [straight]; eauto. Qed.

Lemma walk_path_facing_ahead (k : nat) :
  forall (a : Coords) (e : Facing) (steps : Z),
    walk_path e (straight a e k) steps = Ok (steps + Z.of_nat k).
Proof.
  induction k as [ | k IH]; intros a e steps.
  - cbn. f_equal. lia.
  - cbn [straight].
    destruct (straight_head (add_coords a (Facing_value e)) e k) as [rest Hrest].
    rewrite Hrest, walk_path_step.
    rewrite (move_one_tile_cost e e a) by apply sub_add_coords. cbn [bind].
    rewrite <- Hrest, IH. f_equal.
    replace (Z.min (Z.of_nat (left_turns e e)) (1 + Z.of_nat (right_turns e e))) with 0
      by now destruct e.
    lia.
Qed.

(** X6: rotations are paid once on a straight run: [k + 1] cells ahead in
    one direction cost what the first step costs and 1 for each further
    cell. *)
Theorem walk_path_straight (f e : Facing) (a : Coords) (k : nat) (steps : Z) :
  walk_path f (straight a e (S k)) steps =
    ('(cost, _) <- move_one_tile f a (add_coords a (Facing_value e)) ;;
     Ok (steps + cost + Z.of_nat k)).
Proof.
  cbn [straight].
  destruct (straight_head (add_coords a (Facing_value e)) e k) as [rest Hrest].
  rewrite Hrest, walk_path_step.
  rewrite (move_one_tile_cost f e a) by apply sub_add_coords. cbn [bind].
  now rewrite <- Hrest, walk_path_facing_ahead.
Qed.

(** ** More on the path cost *)

Lemma distance_to_menhir_unreachable_witness :
  distance_to_menhir dijkstra_find_path (wisdom_of walled_row (alone 5 "knife" UP) None)
    = 0.
Proof.
  apply (distance_to_menhir_unreachable
           (wisdom_of walled_row (alone 5 "knife" UP) None) (0, 0) UP
           eq_refl eq_refl).
  - discriminate.
  - discriminate.
  - intros H. apply walled_row_stuck in H; [discriminate H | reflexivity].
Defined.

(** X7: for any finder, when the agent and the menhir are on the grid and
    the finder answers with a walk, [find_path_len] returns and
    [distance_to_menhir] is its result, between one and three actions for
    each step of the walk. *)
Theorem find_path_len_of_walk
  (find_path : Coords -> Coords -> Grid -> result (list Coords))
  (self : Wisdom) (p : Coords) (f : Facing) (path : list Coords) :
  bot_coords self = Ok p ->
  bot_facing self = Ok f ->
  grid_lookup (grid self) p <> None ->
  grid_lookup (grid self) (Arena.menhir_position (arena self)) <> None ->
  find_path p (Arena.menhir_position (arena self)) (grid self) = Ok path ->
  is_walk path ->
  exists n,
    find_path_len find_path self (Arena.menhir_position (arena self)) = Ok n /\
    distance_to_menhir find_path self = n /\
    Z.of_nat (List.length path - 1) <= n <= 3 * Z.of_nat (List.length path - 1).
Proof.
  intros Hp Hf Hin Hgoal Hpath Hwalk.
  destruct (walk_path_bounds path f 0 Hwalk) as [n [Hn Hbounds]].
  assert (Hlen : find_path_len find_path self (Arena.menhir_position (arena self)) = Ok n).
  { unfold find_path_len. rewrite Hp. cbn [bind].
    rewrite (grid_node_inside _ p Hin). cbn [bind].
    rewrite (grid_node_inside _ _ Hgoal). cbn [bind].
    rewrite Hpath. cbn [bind]. rewrite Hf. cbn [bind]. exact Hn. }
  exists n. split; [exact Hlen | ]. split; [ | lia].
  unfold distance_to_menhir. now rewrite Hlen.
Qed.

Lemma find_path_len_of_walk_witness :
  exists n,
    find_path_len dijkstra_find_path (wisdom_of open_row (alone 5 "knife" UP) None)
      (2, 0) = Ok n /\
    distance_to_menhir dijkstra_find_path (wisdom_of open_row (alone 5 "knife" UP) None)
      = n /\
    2 <= n <= 6.
Proof.
  apply (find_path_len_of_walk dijkstra_find_path
           (wisdom_of open_row (alone 5 "knife" UP) None) (0, 0) UP
           [(0, 0); (1, 0); (2, 0)] eq_refl eq_refl).
  - discriminate.
  - discriminate.
  - reflexivity.
  - repeat split; exists RIGHT; reflexivity.
Defined.

Lemma grid_node_outside (g : Grid) (p : Coords) :
  grid_lookup g p = None -> grid_node g (fst p) (snd p) = Raise IndexError.
Proof.
  destruct p as [px py]. unfold grid_node. cbn [fst snd]. now intros ->.
Qed.

(** X8: for any finder, [distance_to_menhir] is the sentinel 1000000 when
    there is no current snapshot, when the agent's position or the menhir
    lies outside the grid, and when the agent's own cell carries no
    occupant. *)
Theorem distance_to_menhir_sentinel_cases
  (find_path : Coords -> Coords -> Grid -> result (list Coords)) (self : Wisdom) :
  (knowledge self = None -> distance_to_menhir find_path self = 1000000) /\
  (forall k,
     knowledge self = Some k ->
     grid_lookup (grid self) (position k) = None \/
     grid_lookup (grid self) (Arena.menhir_position (arena self)) = None \/
     own_occupant k = None ->
     distance_to_menhir find_path self = 1000000).
Proof.
  split.
  - intros Hk. unfold distance_to_menhir, find_path_len, bot_coords. now rewrite Hk.
  - intros k Hk Hcase. unfold distance_to_menhir, find_path_len, bot_coords.
    rewrite Hk. cbn [attr_of bind].
    destruct (grid_node (grid self) (fst (position k)) (snd (position k)))
      as [start | e1] eqn:Hstart; [ | reflexivity].
    cbn [bind].
    destruct (grid_node (grid self) (fst (Arena.menhir_position (arena self)))
                (snd (Arena.menhir_position (arena self))))
      as [goal | e2] eqn:Hgoal; [ | reflexivity].
    cbn [bind].
    destruct Hcase as [Hout | [Hout | Hnone]].
    + rewrite (grid_node_outside _ _ Hout) in Hstart. discriminate Hstart.
    + rewrite (grid_node_outside _ _ Hout) in Hgoal. discriminate Hgoal.
    + destruct (find_path start goal (grid self)); [ | reflexivity]. cbn [bind].
      destruct (bot_character_missing self k Hk Hnone) as [e [_ He]].
      unfold bot_facing. now rewrite He.
Qed.

Lemma distance_to_menhir_sentinel_cases_witness :
  distance_to_menhir dijkstra_find_path (wisdom_of open_row ghost None) = 1000000 /\
  distance_to_menhir dijkstra_find_path (wisdom_on field_arena open_row (crowd []) None)
    = 1000000.
Proof.
  split.
  - apply (proj2 (distance_to_menhir_sentinel_cases dijkstra_find_path
                    (wisdom_of open_row ghost None)) ghost eq_refl).
    right. right. reflexivity.
  - apply (proj2 (distance_to_menhir_sentinel_cases dijkstra_find_path
                    (wisdom_on field_arena open_row (crowd []) None)) (crowd []) eq_refl).
    left. reflexivity.
Defined.

(** ** More on [get_state] *)

Lemma any_character_at_raises (tiles : dict Coords TileDescription) (cut : list Coords)
  (e : exn) :
  any_character_at tiles cut = Raise e -> e = KeyError.
Proof.
  intros H. pose proof (any_character_at_stop tiles cut) as Hstop.
  rewrite H in Hstop. now inversion Hstop.
Qed.

(** X10: [get_state] returns exactly when the own weapon name (the knife,
    without an occupant) is in the catalog, the scan of its footprint
    meets no cell that is not visible, and dx^2 + dy^2 to the menhir is
    below 2^64; when it fails, it fails with [KeyError], or with
    [TypeError] from [np.sqrt] when dx^2 + dy^2 reaches 2^64, and with
    nothing else. *)
Theorem get_state_outcomes
  (cut_positions : Weapon -> Terrain -> Coords -> Facing -> list Coords)
  (hash : string -> Z) (k : ChampionKnowledge) (a : Arena.t) (tick : Z) :
  ((exists st, get_state cut_positions hash k a tick = Ok st) <->
   (exists w b,
      dict_get String.eqb WEAPONS (own_weapon_name k) = Some w /\
      any_character_at (visible_tiles k)
        (cut_positions w (Arena.terrain a) (position k) (own_facing k)) = Ok b) /\
   squared_distance k a < 2 ^ 64) /\
  (forall e,
     get_state cut_positions hash k a tick = Raise e ->
     e = KeyError \/ (e = TypeError /\ 2 ^ 64 <= squared_distance k a)).
Proof.
  pose proof (squared_distance_nonneg k a) as Hpos.
  split; [split | ].
  - intros [st H].
    destruct (get_state_returns cut_positions hash k a tick st H) as [w [b [Hw Hscan]]].
    split; [now exists w, b | ].
    destruct (get_state_unfold cut_positions hash k a tick w b Hw Hscan)
      as [code [_ Heq]].
    rewrite Heq in H.
    destruct (Z.lt_ge_cases (squared_distance k a) (2 ^ 64)) as [Hd | Hd];
      [exact Hd | ].
    rewrite (np_sqrt_too_large _ Hd) in H. discriminate H.
  - intros [[w [b [Hw Hscan]]] Hd].
    destruct (get_state_unfold cut_positions hash k a tick w b Hw Hscan)
      as [code [_ ->]].
    rewrite (np_sqrt_fits _ (conj Hpos Hd)). cbn [bind]. eauto.
  - intros e H. rewrite get_state_eq in H. unfold dict_getitem at 1 in H.
    destruct (dict_get String.eqb WEAPONS (own_weapon_name k)) as [w | ] eqn:Hw;
      [ | cbn [bind] in H; left; congruence].
    cbn [bind] in H.
    destruct (any_character_at (visible_tiles k)
                (cut_positions w (Arena.terrain a) (position k) (own_facing k)))
      as [b | e'] eqn:Hscan.
    + destruct (WEAPON_TO_INT_same_keys _ w Hw) as [code Hcode].
      cbn [bind] in H. unfold dict_getitem in H. rewrite Hcode in H. cbn [bind] in H.
      destruct (Z.lt_ge_cases (squared_distance k a) (2 ^ 64)) as [Hd | Hd].
      * rewrite (np_sqrt_fits _ (conj Hpos Hd)) in H. discriminate H.
      * rewrite (np_sqrt_too_large _ Hd) in H. cbn [bind] in H.
        right. split; [congruence | exact Hd].
    + cbn [bind] in H. apply any_character_at_raises in Hscan. left. congruence.
Qed.

Lemma get_state_outcomes_witness :
  (exists st,
     get_state sample_cut_positions sample_hash (rival_ahead "sword") row_arena 7 = Ok st) /\
  (forall e,
     get_state sample_cut_positions sample_hash (rival_ahead "sword") far_arena 7
       = Raise e ->
     e = KeyError \/
     (e = TypeError /\ 2 ^ 64 <= squared_distance (rival_ahead "sword") far_arena)).
Proof.
  split.
  - apply (proj2 (proj1 (get_state_outcomes sample_cut_positions sample_hash
                           (rival_ahead "sword") row_arena 7))).
    split; [ | reflexivity]. exists Sword, true. split; reflexivity.
  - exact (proj2 (get_state_outcomes sample_cut_positions sample_hash
                    (rival_ahead "sword") far_arena 7)).
Defined.

(** X11: on a snapshot that holds the own occupant, the state [get_state]
    returns agrees with the properties of [Wisdom] on the same snapshot
    and arena: its attack flag is [can_attack_player], its health is
    [bot_health], its facing and weapon fields are the codes of
    [bot_facing] and of the name of [bot_weapon]. *)
Theorem get_state_agrees_with_wisdom
  (cut_positions : Weapon -> Terrain -> Coords -> Facing -> list Coords)
  (hash : string -> Z) (self : Wisdom) (k : ChampionKnowledge)
  (c : ChampionDescription) (tick : Z) (st : State.t) :
  knowledge self = Some k ->
  own_occupant k = Some c ->
  get_state cut_positions hash k (arena self) tick = Ok st ->
  can_attack_player cut_positions self = Ok (State.can_attack_enemy st) /\
  bot_health self = Ok (State.health st) /\
  (f <- bot_facing self ;; Ok (FACING_TO_INT f)) = Ok (State.facing st) /\
  (exists w, bot_weapon self = Ok w) /\
  dict_get String.eqb WEAPON_TO_INT (name (weapon c)) = Some (State.weapon st).
Proof.
  intros Hk Hc Hst.
  pose proof (bot_character_present self k c Hk Hc) as Hch.
  assert (Hname : own_weapon_name k = name (weapon c))
    by (unfold own_weapon_name; now rewrite Hc).
  assert (Hfacing : own_facing k = facing c)
    by (unfold own_facing; now rewrite Hc).
  destruct (get_state_returns cut_positions hash k (arena self) tick st Hst)
    as [w [b [Hw Hscan]]].
  destruct (get_state_unfold cut_positions hash k (arena self) tick w b Hw Hscan)
    as [code [Hcode Heq]].
  rewrite Heq in Hst. clear Heq.
  destruct (np_sqrt (squared_distance k (arena self))) as [dist | ];
    [ | discriminate Hst].
  cbn [bind] in Hst. injection Hst as <-.
  cbn [State.can_attack_enemy State.health State.facing State.weapon].
  rewrite Hname in Hw, Hcode. rewrite Hfacing in Hscan.
  assert (Hbw : bot_weapon self = Ok w).
  { rewrite (bot_weapon_catalogued self k c Hk Hc). unfold dict_getitem. now rewrite Hw. }
  repeat split.
  - unfold can_attack_player, bot_coords, bot_facing. rewrite Hbw, Hk, Hch. exact Hscan.
  - unfold bot_health. rewrite Hch, Hc. reflexivity.
  - unfold bot_facing. rewrite Hch, Hfacing. reflexivity.
  - now exists w.
  - exact Hcode.
Qed.

Lemma get_state_agrees_with_wisdom_witness :
  can_attack_player sample_cut_positions (wisdom_of open_row (rival_ahead "sword") None)
    = Ok true /\
  bot_health (wisdom_of open_row (rival_ahead "sword") None) = Ok 5 /\
  (f <- bot_facing (wisdom_of open_row (rival_ahead "sword") None) ;;
   Ok (FACING_TO_INT f)) = Ok 1 /\
  (exists w, bot_weapon (wisdom_of open_row (rival_ahead "sword") None) = Ok w) /\
  dict_get String.eqb WEAPON_TO_INT "sword" = Some 2.
Proof.
  exact (get_state_agrees_with_wisdom sample_cut_positions sample_hash
           (wisdom_of open_row (rival_ahead "sword") None) (rival_ahead "sword")
           (champion 5 "sword" RIGHT) 7
           (State.mk 3 0 0 5 1 true 1 2 (PrimFloat.sqrt (float_of_int 4)) 7)
           eq_refl eq_refl eq_refl).
Defined.

(** ** More on the relative offsets *)

Lemma list_setitem_length {A : Type} (l : list A) :
  forall (i : nat) (v : A) (l' : list A),
    list_setitem l i v = Ok l' -> List.length l' = List.length l.
Proof.
  induction l as [ | a l IH]; intros i v l' H; [destruct i; discriminate H | ].
  destruct i as [ | i]; cbn [list_setitem] in H.
  - inversion H. reflexivity.
  - destruct (list_setitem l i v) as [l1 | ] eqn:E; [ | discriminate H].
    cbn [bind] in H. inversion H. cbn [List.length]. f_equal. exact (IH i v l1 E).
Qed.

Lemma fill_offsets_length (offsets : list Coords) :
  forall (i : nat) (res l : list Z),
    fill_offsets offsets i res = Ok l -> List.length l = List.length res.
Proof.
  induction offsets as [ | [x y] offsets IH]; intros i res l H.
  - cbn in H. inversion H. reflexivity.
  - cbn [fill_offsets] in H.
    destruct (list_setitem res (2 * i) x) as [res1 | ] eqn:E1; [ | discriminate H].
    cbn [bind] in H.
    destruct (list_setitem res1 (2 * i + 1) y) as [res2 | ] eqn:E2; [ | discriminate H].
    cbn [bind] in H.
    rewrite (IH _ _ _ H), (list_setitem_length _ _ _ _ E2), (list_setitem_length _ _ _ _ E1).
    reflexivity.
Qed.

(** X13: whenever [relative_enemies_positions] returns, the list it
    returns has length 10. *)
Theorem relative_enemies_positions_length (self : Wisdom) (l : list Z) :
  relative_enemies_positions self = Ok l -> List.length l = 10%nat.
Proof.
  unfold relative_enemies_positions, bot_coords. intros H.
  destruct (knowledge self) as [k | ]; [ | discriminate H].
  cbn [attr_of bind] in H. now apply fill_offsets_length in H.
Qed.

Lemma relative_enemies_positions_length_witness :
  List.length [0; -2; 0; -1; 0; 0; 0; 0; 0; 0] = 10%nat.
Proof.
  exact (relative_enemies_positions_length (crowd_wisdom [(2, 0); (2, 1)])
           [0; -2; 0; -1; 0; 0; 0; 0; 0; 0] eq_refl).
Defined.

Lemma get_state_visible_enemies
  (cut_positions : Weapon -> Terrain -> Coords -> Facing -> list Coords)
  (hash : string -> Z) (k : ChampionKnowledge) (a : Arena.t) (tick : Z) (st : State.t) :
  get_state cut_positions hash k a tick = Ok st ->
  State.visible_enemies st = Z.of_nat (List.length (enemy_offsets k)).
Proof.
  intros Hst.
  destruct (get_state_returns cut_positions hash k a tick st Hst) as [w [b [Hw Hscan]]].
  destruct (get_state_unfold cut_positions hash k a tick w b Hw Hscan) as [code [_ Heq]].
  rewrite Heq in Hst. clear Heq.
  destruct (np_sqrt (squared_distance k a)) as [dist | ]; [ | discriminate Hst].
  cbn [bind] in Hst. injection Hst as <-.
  cbn [State.visible_enemies]. unfold enemy_offsets. now rewrite length_map.
Qed.

(** X12: the count of visible rivals in the state [get_state] returns
    tells whether [relative_enemies_positions] works on the same
    snapshot: up to 5 it returns a list, from 6 on it raises
    [IndexError]. *)
Theorem visible_enemies_decides_overflow
  (cut_positions : Weapon -> Terrain -> Coords -> Facing -> list Coords)
  (hash : string -> Z) (self : Wisdom) (k : ChampionKnowledge) (a : Arena.t)
  (tick : Z) (st : State.t) :
  knowledge self = Some k ->
  get_state cut_positions hash k a tick = Ok st ->
  (State.visible_enemies st <= 5 ->
     exists l, relative_enemies_positions self = Ok l) /\
  (5 < State.visible_enemies st ->
     relative_enemies_positions self = Raise IndexError).
Proof.
  intros Hk Hst.
  rewrite (get_state_visible_enemies cut_positions hash k a tick st Hst).
  rewrite (relative_enemies_positions_unfold self k Hk). split; intros Hn.
  - pose proof (fill_offsets_fits (enemy_offsets k) 0
                  (5 - List.length (enemy_offsets k)) [] eq_refl) as H.
    cbn [app] in H.
    replace (2 * (List.length (enemy_offsets k) + (5 - List.length (enemy_offsets k))))%nat
      with 10%nat in H by lia.
    rewrite H. eauto.
  - apply fill_offsets_overflow; [reflexivity | lia].
Qed.

Lemma visible_enemies_decides_overflow_witness :
  (exists l, relative_enemies_positions (crowd_wisdom [(2, 0); (2, 1)]) = Ok l) /\
  relative_enemies_positions (crowd_wisdom six_cells) = Raise IndexError.
Proof.
  split.
  - apply (proj1 (visible_enemies_decides_overflow sample_cut_positions sample_hash
                    (crowd_wisdom [(2, 0); (2, 1)]) (crowd [(2, 0); (2, 1)]) field_arena 7
                    (State.mk 5 2 2 5 2 true 0 3 (PrimFloat.sqrt (float_of_int 8)) 7) eq_refl eq_refl)).
    cbn. lia.
  - apply (proj2 (visible_enemies_decides_overflow sample_cut_positions sample_hash
                    (crowd_wisdom six_cells) (crowd six_cells) field_arena 7
                    (State.mk 5 2 2 5 6 true 0 3 (PrimFloat.sqrt (float_of_int 8)) 7) eq_refl eq_refl)).
    cbn. lia.
Defined.

Lemma nth_flatten_padded (offsets : list Coords) (m : nat) :
  forall i : nat,
    nth (2 * i) (flatten_offsets offsets ++ repeat 0 m) 0 = fst (nth i offsets (0, 0)) /\
    nth (2 * i + 1) (flatten_offsets offsets ++ repeat 0 m) 0 = snd (nth i offsets (0, 0)).
Proof.
  induction offsets as [ | c offsets IH]; intros i.
  - cbn [flatten_offsets flat_map app]. rewrite !nth_repeat. now destruct i.
  - destruct i as [ | i]; [split; reflexivity | ].
    replace (2 * S i)%nat with (S (S (2 * i))) by lia.
    replace (S (S (2 * i)) + 1)%nat with (S (S (2 * i + 1))) by lia.
    cbn [flatten_offsets flat_map app nth]. apply IH.
Qed.

Lemma enemy_offsets_nonzero (k : ChampionKnowledge) (o : Coords) :
  In o (enemy_offsets k) -> o <> (0, 0).
Proof.
  unfold enemy_offsets. rewrite in_map_iff. intros [item [<- Hin]].
  apply filter_In in Hin. destruct Hin as [_ Henemy].
  unfold is_enemy_item in Henemy. apply andb_true_iff in Henemy.
  destruct Henemy as [_ Hne]. intros Hzero. apply negb_true_iff in Hne.
  assert (Heq : fst item = position k).
  { destruct (fst item) as [ix iy], (position k) as [px py].
    unfold sub_coords in Hzero. cbn [fst snd] in Hzero. inversion Hzero.
    f_equal; lia. }
  rewrite Heq, Coords_eqb_refl in Hne. discriminate Hne.
Qed.

(** X14: the list [relative_enemies_positions] returns can be read back:
    slot [i] (entries [2 i] and [2 i + 1]) holds the offset of the [i]-th
    visible rival in the order of the map, and a slot is (0, 0) exactly
    when there is no such rival, a rival never being at offset (0, 0). *)
Theorem relative_enemies_positions_slots (self : Wisdom) (k : ChampionKnowledge)
  (l : list Z) (i : nat) :
  knowledge self = Some k ->
  relative_enemies_positions self = Ok l ->
  (nth (2 * i) l 0, nth (2 * i + 1) l 0) = nth i (enemy_offsets k) (0, 0) /\
  ((nth (2 * i) l 0, nth (2 * i + 1) l 0) <> (0, 0) <->
   (i < List.length (enemy_offsets k))%nat).
Proof.
  intros Hk Hl. rewrite (relative_enemies_positions_unfold self k Hk) in Hl.
  assert (Hcount : (List.length (enemy_offsets k) <= 5)%nat).
  { destruct (le_dec (List.length (enemy_offsets k)) 5) as [H | H]; [exact H | ].
    rewrite fill_offsets_overflow in Hl; [discriminate Hl | reflexivity | lia]. }
  pose proof (fill_offsets_fits (enemy_offsets k) 0
                (5 - List.length (enemy_offsets k)) [] eq_refl) as H.
  cbn [app] in H.
  replace (2 * (List.length (enemy_offsets k) + (5 - List.length (enemy_offsets k))))%nat
    with 10%nat in H by lia.
  rewrite H in Hl. clear H.
  assert (Heq : l = flatten_offsets (enemy_offsets k) ++
                    repeat 0 (2 * (5 - List.length (enemy_offsets k))))
    by congruence.
  subst l. clear Hl.
  destruct (nth_flatten_padded (enemy_offsets k)
              (2 * (5 - List.length (enemy_offsets k))) i) as [-> ->].
  rewrite <- surjective_pairing. split; [reflexivity | ]. split.
  - intros Hne. destruct (lt_dec i (List.length (enemy_offsets k))) as [Hlt | Hge];
      [exact Hlt | ].
    rewrite nth_overflow in Hne by lia. now elim Hne.
  - intros Hlt. apply (enemy_offsets_nonzero k). now apply nth_In.
Qed.

Lemma relative_enemies_positions_slots_witness :
  (nth (2 * 1) [0; -2; 0; -1; 0; 0; 0; 0; 0; 0] 0,
   nth (2 * 1 + 1) [0; -2; 0; -1; 0; 0; 0; 0; 0; 0] 0)
    = nth 1 (enemy_offsets (crowd [(2, 0); (2, 1)])) (0, 0) /\
  ((nth (2 * 1) [0; -2; 0; -1; 0; 0; 0; 0; 0; 0] 0,
    nth (2 * 1 + 1) [0; -2; 0; -1; 0; 0; 0; 0; 0; 0] 0) <> (0, 0) <->
   Nat.lt 1 (List.length (enemy_offsets (crowd [(2, 0); (2, 1)])))).
Proof.
  exact (relative_enemies_positions_slots (crowd_wisdom [(2, 0); (2, 1)])
           (crowd [(2, 0); (2, 1)]) [0; -2; 0; -1; 0; 0; 0; 0; 0; 0] 1%nat
           eq_refl eq_refl).
Defined.

(** ** More on the snapshots the facade keeps *)

Lemma fold_next_knowledge_fields (ks : list ChampionKnowledge) :
  forall self : Wisdom,
    t (fold_left next_knowledge ks self) = t self + Z.of_nat (List.length ks) /\
    arena (fold_left next_knowledge ks self) = arena self /\
    grid (fold_left next_knowledge ks self) = grid self /\
    bot_name (fold_left next_knowledge ks self) = bot_name self.
Proof.
  induction ks as [ | k ks IH]; intros self.
  - cbn. repeat split. lia.
  - cbn [fold_left List.length]. destruct (IH (next_knowledge self k)) as [Ht [Ha [Hg Hn]]].
    rewrite Ht, Ha, Hg, Hn. cbn [next_knowledge t arena grid bot_name].
    repeat split. lia.
Qed.

(** X16: after any number of calls of [next_knowledge] the counter [t] has
    gone up by that number, the arena, the grid and the name are the ones
    the facade started with, and the two snapshots kept are the last two
    that were handed in, whatever came before. *)
Theorem next_knowledge_sequence (self : Wisdom) (ks : list ChampionKnowledge)
  (k1 k2 : ChampionKnowledge) :
  let self' := fold_left next_knowledge (ks ++ [k1; k2]) self in
  t self' = t self + Z.of_nat (List.length ks) + 2 /\
  arena self' = arena self /\
  grid self' = grid self /\
  bot_name self' = bot_name self /\
  knowledge self' = Some k2 /\
  prev_knowledge self' = Some k1.
Proof.
  intros self'. subst self'.
  destruct (fold_next_knowledge_fields (ks ++ [k1; k2]) self) as [Ht [Ha [Hg Hn]]].
  rewrite Ht, Ha, Hg, Hn, length_app. cbn [List.length].
  repeat split; [lia | | ]; rewrite fold_left_app; reflexivity.
Qed.

(** X15: [next_knowledge] makes the snapshot it replaces the baseline of
    [lost_health]: after it, [lost_health] is true exactly when the health
    in the new snapshot differs from the health in the replaced one, and
    from [MAX_HEALTH] when there was none to replace. *)
Theorem lost_health_after_next_knowledge (self : Wisdom) (k' : ChampionKnowledge)
  (c' : ChampionDescription) :
  own_occupant k' = Some c' ->
  match knowledge self with
  | None =>
      returns_iff (lost_health (next_knowledge self k')) (health c' <> MAX_HEALTH)
  | Some k =>
      forall c, own_occupant k = Some c ->
                returns_iff (lost_health (next_knowledge self k'))
                            (health c' <> health c)
  end.
Proof.
  intros Hc'.
  assert (Hh : bot_health (next_knowledge self k') = Ok (health c')).
  { unfold bot_health.
    now rewrite (bot_character_present (next_knowledge self k') k' c' eq_refl Hc'). }
  destruct (knowledge self) as [k | ] eqn:Hk.
  - intros c Hc. unfold lost_health. rewrite Hh.
    rewrite (prev_bot_health_present (next_knowledge self k') k c Hk Hc). cbn [bind].
    eexists. split; [reflexivity | apply negb_eqb_true_iff].
  - unfold lost_health, prev_bot_health. rewrite Hh.
    cbn [next_knowledge prev_knowledge]. rewrite Hk. cbn [bind].
    eexists. split; [reflexivity | apply negb_eqb_true_iff].
Qed.

Lemma lost_health_after_next_knowledge_witness :
  returns_iff
    (lost_health (next_knowledge (wisdom_of open_row (alone 5 "knife" UP) None)
                    (alone 3 "knife" UP)))
    (health (champion 3 "knife" UP) <> health (champion 5 "knife" UP)).
Proof.
  exact (lost_health_after_next_knowledge
           (wisdom_of open_row (alone 5 "knife" UP) None) (alone 3 "knife" UP)
           (champion 3 "knife" UP) eq_refl (champion 5 "knife" UP) eq_refl).
Defined.

(** X17: after [next_knowledge], [coords_did_not_change] is true exactly
    when the new snapshot has the position of the replaced one; it is
    false when there was none to replace. *)
Theorem coords_did_not_change_after_next_knowledge (self : Wisdom)
  (k' : ChampionKnowledge) :
  match knowledge self with
  | None => coords_did_not_change (next_knowledge self k') = Ok false
  | Some k =>
      returns_iff (coords_did_not_change (next_knowledge self k'))
                  (position k' = position k)
  end.
Proof.
  unfold coords_did_not_change. cbn [next_knowledge prev_knowledge knowledge].
  destruct (knowledge self) as [k | ]; [ | reflexivity].
  cbn [attr_of bind]. eexists. split; [reflexivity | apply Coords_eqb_eq].
Qed.

(** X18: [prev_bot_facing] looks into the previous snapshot at the
    agent's current position: it returns the previous own facing when the
    agent has not moved, and otherwise the facing of whoever stood on that
    cell, [AssertionError] when the cell was empty and [KeyError] when it
    was not visible. *)
Theorem prev_bot_facing_reads_current_cell (self : Wisdom) (k pk : ChampionKnowledge) :
  knowledge self = Some k ->
  prev_knowledge self = Some pk ->
  (position k = position pk ->
     forall pc, own_occupant pk = Some pc -> prev_bot_facing self = Ok (facing pc)) /\
  (forall tile ch,
     dict_get Coords_eqb (visible_tiles pk) (position k) = Some tile ->
     character tile = Some ch -> prev_bot_facing self = Ok (facing ch)) /\
  (forall tile,
     dict_get Coords_eqb (visible_tiles pk) (position k) = Some tile ->
     character tile = None -> prev_bot_facing self = Raise AssertionError) /\
  (dict_get Coords_eqb (visible_tiles pk) (position k) = None ->
     prev_bot_facing self = Raise KeyError).
Proof.
  intros Hk Hpk.
  assert (Hunfold : prev_bot_facing self =
                    (tile <- dict_getitem Coords_eqb (visible_tiles pk) (position k) ;;
                     c <- assert_some (character tile) ;; Ok (facing c))).
  { unfold prev_bot_facing, bot_coords. now rewrite Hk, Hpk. }
  rewrite Hunfold. unfold dict_getitem. repeat split.
  - intros Hpos pc Hpc. rewrite Hpos. unfold own_occupant in Hpc.
    destruct (dict_get Coords_eqb (visible_tiles pk) (position pk)); [ | discriminate Hpc].
    cbn [bind]. now rewrite Hpc.
  - intros tile ch -> Hch. cbn [bind]. now rewrite Hch.
  - intros tile -> Hch. cbn [bind]. now rewrite Hch.
  - now intros ->.
Qed.

Lemma prev_bot_facing_reads_current_cell_witness :
  prev_bot_facing (wisdom_of open_row moved_ahead (Some (rival_ahead "knife")))
    = Ok (facing (rival LEFT)) /\
  prev_bot_facing (wisdom_of open_row ghost (Some (alone 5 "knife" UP)))
    = Raise KeyError.
Proof.
  split.
  - exact (proj1 (proj2 (prev_bot_facing_reads_current_cell
                    (wisdom_of open_row moved_ahead (Some (rival_ahead "knife")))
                    moved_ahead (rival_ahead "knife") eq_refl eq_refl))
                 (ground None (Some (rival LEFT))) (rival LEFT) eq_refl eq_refl).
  - exact (proj2 (proj2 (proj2 (prev_bot_facing_reads_current_cell
                    (wisdom_of open_row ghost (Some (alone 5 "knife" UP)))
                    ghost (alone 5 "knife" UP) eq_refl eq_refl)))
                 eq_refl).
Defined.

(** ** More on the derived queries *)

(** X19: [relative_menhir_position] returns the two components of the
    offset that, added to the agent's position, gives the menhir; it is
    [0; 0] exactly when the agent stands on the menhir. *)
Theorem relative_menhir_position_round_trip (self : Wisdom) (k : ChampionKnowledge) :
  knowledge self = Some k ->
  exists dx dy,
    relative_menhir_position self = Ok [dx; dy] /\
    add_coords (position k) (dx, dy) = Arena.menhir_position (arena self) /\
    ((dx, dy) = (0, 0) <-> position k = Arena.menhir_position (arena self)).
Proof.
  intros Hk. unfold relative_menhir_position, bot_coords. rewrite Hk. cbn [attr_of bind].
  destruct (position k) as [px py], (Arena.menhir_position (arena self)) as [mx my].
  unfold sub_coords, add_coords. cbn [fst snd].
  eexists _, _. split; [reflexivity | ]. split; [f_equal; lia | ].
  split; intros H; inversion H; f_equal; lia.
Qed.

Lemma relative_menhir_position_round_trip_witness :
  exists dx dy,
    relative_menhir_position (wisdom_of open_row (alone 5 "knife" UP) None)
      = Ok [dx; dy] /\
    add_coords (0, 0) (dx, dy) = (2, 0) /\
    ((dx, dy) = (0, 0) <-> (0, 0) = (2, 0)).
Proof.
  exact (relative_menhir_position_round_trip
           (wisdom_of open_row (alone 5 "knife" UP) None) (alone 5 "knife" UP) eq_refl).
Defined.

(** X20: with a current snapshot, [mist_visible] returns, and it is true
    exactly when some visible tile carries an effect of type "mist". *)
Theorem mist_visible_iff (self : Wisdom) (k : ChampionKnowledge) :
  knowledge self = Some k ->
  returns_iff (mist_visible self)
    (exists item effect,
       In item (visible_tiles k) /\ In effect (effects (snd item)) /\
       type effect = "mist").
Proof.
  intros Hk. unfold mist_visible. rewrite Hk. cbn [attr_of bind].
  eexists. split; [reflexivity | ].
  unfold dict_values, has_mist. rewrite existsb_exists. split.
  - intros [tile [Hin Hmist]]. apply in_map_iff in Hin. destruct Hin as [item [<- Hin]].
    apply existsb_exists in Hmist. destruct Hmist as [effect [Heff Heq]].
    apply String.eqb_eq in Heq. exists item, effect. auto.
  - intros [item [effect [Hin [Heff Heq]]]]. exists (snd item).
    split; [now apply in_map | ]. apply existsb_exists. exists effect.
    split; [exact Heff | ]. apply String.eqb_eq. now symmetry.
Qed.

Lemma mist_visible_iff_witness :
  returns_iff (mist_visible (wisdom_of open_row mist_ahead None))
    (exists item effect,
       In item (visible_tiles mist_ahead) /\ In effect (effects (snd item)) /\
       type effect = "mist").
Proof.
  exact (mist_visible_iff (wisdom_of open_row mist_ahead None) mist_ahead eq_refl).
Defined.

Lemma dict_get_In {K V : Type} (eqb : K -> K -> bool) (d : dict K V) (key : K) (v : V) :
  dict_get eqb d key = Some v -> exists key', In (key', v) d.
Proof.
  induction d as [ | [k0 v0] d IH]; [discriminate | ].
  cbn [dict_get]. destruct (eqb k0 key).
  - intros H. inversion H; subst. exists k0. now left.
  - intros H. destruct (IH H) as [key' Hin]. exists key'. now right.
Qed.

(** X21: whenever the agent's own cell is in view with the agent on it,
    [enemies_visible] returns true, rivals or no rivals. *)
Theorem enemies_visible_with_own_occupant (self : Wisdom) (k : ChampionKnowledge)
  (c : ChampionDescription) :
  knowledge self = Some k -> own_occupant k = Some c ->
  enemies_visible self = Ok true.
Proof.
  intros Hk Hc. unfold enemies_visible. rewrite Hk. cbn [attr_of bind]. f_equal.
  apply existsb_exists. unfold own_occupant in Hc.
  destruct (dict_get Coords_eqb (visible_tiles k) (position k)) as [tile | ] eqn:Ht;
    [ | discriminate Hc].
  destruct (dict_get_In _ _ _ _ Ht) as [key Hin].
  exists tile. split; [ | now rewrite Hc].
  unfold dict_values. apply in_map_iff. now exists (key, tile).
Qed.

Lemma enemies_visible_with_own_occupant_witness :
  enemies_visible (wisdom_of open_row (scroll_ahead "bow") None) = Ok true.
Proof.
  exact (enemies_visible_with_own_occupant
           (wisdom_of open_row (scroll_ahead "bow") None) (scroll_ahead "bow")
           (champion 5 "bow" RIGHT) eq_refl eq_refl).
Defined.

(** ** More on the weapons *)

Lemma any_better_loot_iff (self : Wisdom) (own : Weapon) (tiles : list TileDescription) :
  bot_weapon self = Ok own ->
  returns_iff (any_better_loot self tiles)
    (exists tile l,
       In tile tiles /\ loot tile = Some l /\
       weapon_ranking (Some own)
         < weapon_ranking (dict_get String.eqb WEAPONS (name l))).
Proof.
  intros Hown. induction tiles as [ | tile tiles [b [Hb Hiff]]].
  - exists false. split; [reflexivity | ].
    split; [discriminate | intros [tile [l [[] _]]]].
  - cbn [any_better_loot]. destruct (loot tile) as [l | ] eqn:Hl.
    + rewrite Hown. cbn [bind].
      destruct (weapon_ranking (dict_get String.eqb WEAPONS (name l))
                >? weapon_ranking (Some own)) eqn:Hgt.
      * exists true. split; [reflexivity | ]. split; [ | reflexivity].
        intros _. exists tile, l. split; [now left | ]. split; [exact Hl | ].
        apply Z.gtb_lt in Hgt. lia.
      * exists b. split; [exact Hb | ]. rewrite Hiff. split.
        -- intros [tile' [l' [Hin H]]]. exists tile', l'. split; [now right | exact H].
        -- intros [tile' [l' [[<- | Hin] [Hl' Hlt]]]].
           ++ rewrite Hl in Hl'. inversion Hl'; subst l'.
              rewrite Z.gtb_ltb in Hgt. apply Z.ltb_ge in Hgt. lia.
           ++ exists tile', l'. auto.
    + exists b. split; [exact Hb | ]. rewrite Hiff. split.
      * intros [tile' [l' [Hin H]]]. exists tile', l'. split; [now right | exact H].
      * intros [tile' [l' [[<- | Hin] [Hl' Hlt]]]]; [congruence | ].
        exists tile', l'. auto.
Qed.

(** X22: with the own weapon readable, [better_weapon_visible] returns,
    and it is true exactly when some visible tile carries loot that
    [weapon_ranking] ranks strictly above the own weapon. *)
Theorem better_weapon_visible_iff (self : Wisdom) (k : ChampionKnowledge) (own : Weapon) :
  knowledge self = Some k ->
  bot_weapon self = Ok own ->
  returns_iff (better_weapon_visible self)
    (exists item l,
       In item (visible_tiles k) /\ loot (snd item) = Some l /\
       weapon_ranking (Some own)
         < weapon_ranking (dict_get String.eqb WEAPONS (name l))).
Proof.
  intros Hk Hown. unfold better_weapon_visible. rewrite Hk. cbn [attr_of bind].
  destruct (any_better_loot_iff self own (dict_values (visible_tiles k)) Hown)
    as [b [Hb Hiff]].
  exists b. split; [exact Hb | ]. rewrite Hiff. unfold dict_values. split.
  - intros [tile [l [Hin H]]]. apply in_map_iff in Hin. destruct Hin as [item [<- Hin]].
    exists item, l. auto.
  - intros [item [l [Hin H]]]. exists (snd item), l. split; [now apply in_map | exact H].
Qed.

Lemma better_weapon_visible_iff_witness :
  returns_iff (better_weapon_visible (wisdom_of open_row (bow_ahead "axe") None))
    (exists item l,
       In item (visible_tiles (bow_ahead "axe")) /\ loot (snd item) = Some l /\
       weapon_ranking (Some Axe)
         < weapon_ranking (dict_get String.eqb WEAPONS (name l))).
Proof.
  exact (better_weapon_visible_iff (wisdom_of open_row (bow_ahead "axe") None)
           (bow_ahead "axe") Axe eq_refl eq_refl).
Defined.

Lemma any_better_loot_no_loot (self : Wisdom) (tiles : list TileDescription) :
  (forall tile, In tile tiles -> loot tile = None) ->
  any_better_loot self tiles = Ok false.
Proof.
  induction tiles as [ | tile tiles IH]; intros Hall; [reflexivity | ].
  cbn [any_better_loot]. rewrite (Hall tile (or_introl eq_refl)).
  apply IH. intros tile' Hin. apply Hall. now right.
Qed.

Lemma any_better_loot_unreadable (self : Wisdom) (e : exn) (tiles : list TileDescription) :
  bot_weapon self = Raise e ->
  (exists tile l, In tile tiles /\ loot tile = Some l) ->
  any_better_loot self tiles = Raise e.
Proof.
  intros Hown. induction tiles as [ | tile tiles IH]; intros [tile' [l [Hin Hl]]];
    [destruct Hin | ].
  cbn [any_better_loot]. destruct (loot tile) as [l0 | ] eqn:Hl0.
  - now rewrite Hown.
  - apply IH. destruct Hin as [<- | Hin]; [congruence | eauto].
Qed.

(** X23: [better_weapon_visible] reads the own weapon only when it meets
    loot: with no loot in view it returns false even on a snapshot
    without the own occupant, and with loot in view such a snapshot makes
    it fail. *)
Theorem better_weapon_visible_reads_own_weapon_on_loot (self : Wisdom)
  (k : ChampionKnowledge) :
  knowledge self = Some k ->
  ((forall item, In item (visible_tiles k) -> loot (snd item) = None) ->
     better_weapon_visible self = Ok false) /\
  (own_occupant k = None ->
     (exists item l, In item (visible_tiles k) /\ loot (snd item) = Some l) ->
     exists e, (e = KeyError \/ e = AssertionError) /\
               better_weapon_visible self = Raise e).
Proof.
  intros Hk. unfold better_weapon_visible. rewrite Hk. cbn [attr_of bind]. split.
  - intros Hall. apply any_better_loot_no_loot. intros tile Hin.
    unfold dict_values in Hin. apply in_map_iff in Hin.
    destruct Hin as [item [<- Hin]]. now apply Hall.
  - intros Hnone [item [l [Hin Hl]]].
    destruct (bot_character_missing self k Hk Hnone) as [e [He Hr]].
    exists e. split; [exact He | ]. apply any_better_loot_unreadable.
    + unfold bot_weapon. now rewrite Hr.
    + exists (snd item), l. split; [now apply in_map | exact Hl].
Qed.

Lemma better_weapon_visible_reads_own_weapon_on_loot_witness :
  better_weapon_visible (wisdom_of open_row ghost None) = Ok false.
Proof.
  apply (proj1 (better_weapon_visible_reads_own_weapon_on_loot
                  (wisdom_of open_row ghost None) ghost eq_refl)).
  intros item [<- | []]. reflexivity.
Defined.

Lemma weapon_ranking_bounds (w : option Weapon) : 0 <= weapon_ranking w <= 10.
Proof. destruct w as [[ | | | | ] | ]; cbn; lia. Qed.

Lemma will_pick_up_worse_weapon_unfold (self : Wisdom) (k : ChampionKnowledge)
  (c : ChampionDescription) (own : Weapon) :
  knowledge self = Some k ->
  own_occupant k = Some c ->
  bot_weapon self = Ok own ->
  will_pick_up_worse_weapon self =
    (tile <- dict_getitem Coords_eqb (visible_tiles k)
               (add_coords (position k) (Facing_value (facing c))) ;;
     match loot tile with
     | None => Ok false
     | Some l =>
         Ok (weapon_ranking (dict_get String.eqb WEAPONS (name l))
             <? weapon_ranking (Some own))
     end).
Proof.
  intros Hk Hc Hw.
  unfold will_pick_up_worse_weapon, bot_coords, bot_facing.
  rewrite Hk, (bot_character_present self k c Hk Hc). cbn [attr_of bind].
  destruct (dict_getitem Coords_eqb (visible_tiles k) _) as [tile | e]; [ | reflexivity].
  cbn [bind]. destruct (loot tile); [ | reflexivity]. now rewrite Hw.
Qed.

(** X25: with the own occupant present, its weapon in the catalog and the
    cell ahead visible, [will_pick_up_worse_weapon] returns, and it is
    true exactly when that cell carries loot that [weapon_ranking] ranks
    strictly below the own weapon. *)
Theorem will_pick_up_worse_weapon_iff (self : Wisdom) (k : ChampionKnowledge)
  (c : ChampionDescription) (own : Weapon) (tile : TileDescription) :
  knowledge self = Some k ->
  own_occupant k = Some c ->
  dict_get String.eqb WEAPONS (name (weapon c)) = Some own ->
  dict_get Coords_eqb (visible_tiles k)
    (add_coords (position k) (Facing_value (facing c))) = Some tile ->
  returns_iff (will_pick_up_worse_weapon self)
    (exists l,
       loot tile = Some l /\
       weapon_ranking (dict_get String.eqb WEAPONS (name l))
         < weapon_ranking (Some own)).
Proof.
  intros Hk Hc Hown Htile.
  assert (Hw : bot_weapon self = Ok own).
  { rewrite (bot_weapon_catalogued self k c Hk Hc). unfold dict_getitem. now rewrite Hown. }
  rewrite (will_pick_up_worse_weapon_unfold self k c own Hk Hc Hw).
  unfold dict_getitem. rewrite Htile. cbn [bind].
  destruct (loot tile) as [l | ].
  - eexists. split; [reflexivity | ]. rewrite Z.ltb_lt. split.
    + intros H. now exists l.
    + intros [l' [Hl' H]]. now inversion Hl'; subst.
  - exists false. split; [reflexivity | ].
    split; [discriminate | intros [l [Hl _]]; discriminate Hl].
Qed.

Lemma will_pick_up_worse_weapon_iff_witness :
  returns_iff (will_pick_up_worse_weapon (wisdom_of open_row (bow_ahead "axe") None))
    (exists l,
       loot (ground (Some {| name := "bow" |}) None) = Some l /\
       weapon_ranking (dict_get String.eqb WEAPONS (name l))
         < weapon_ranking (Some Axe)).
Proof.
  exact (will_pick_up_worse_weapon_iff (wisdom_of open_row (bow_ahead "axe") None)
           (bow_ahead "axe") (champion 5 "axe" RIGHT) Axe
           (ground (Some {| name := "bow" |}) None) eq_refl eq_refl eq_refl eq_refl).
Defined.

(** X24: the two ends of the ranking: an agent holding the bow is never
    told of a better weapon in view, and an agent holding the knife is
    never told that it would pick up a worse one. *)
Theorem ranking_extremes (self : Wisdom) (k : ChampionKnowledge) :
  knowledge self = Some k ->
  (bot_weapon self = Ok Bow -> better_weapon_visible self = Ok false) /\
  (bot_weapon self = Ok Knife ->
     forall b, will_pick_up_worse_weapon self = Ok b -> b = false).
Proof.
  intros Hk. split.
  - intros Hbow. unfold better_weapon_visible. rewrite Hk. cbn [attr_of bind].
    destruct (any_better_loot_iff self Bow (dict_values (visible_tiles k)) Hbow)
      as [b [Hb Hiff]].
    rewrite Hb. f_equal. destruct b; [ | reflexivity].
    destruct (proj1 Hiff eq_refl) as [tile [l [_ [_ Hlt]]]].
    pose proof (weapon_ranking_bounds (dict_get String.eqb WEAPONS (name l))) as Hle.
    change (weapon_ranking (Some Bow)) with 10 in Hlt. lia.
  - intros Hknife b Hb.
    destruct (own_occupant k) as [c | ] eqn:Hc.
    + rewrite (will_pick_up_worse_weapon_unfold self k c Knife Hk Hc Hknife) in Hb.
      destruct (dict_getitem Coords_eqb (visible_tiles k) _) as [tile | ];
        [ | discriminate Hb].
      unfold bind in Hb. destruct (loot tile) as [l | ]; [ | congruence].
      pose proof (weapon_ranking_bounds (dict_get String.eqb WEAPONS (name l))) as Hle.
      set (rank := weapon_ranking (dict_get String.eqb WEAPONS (name l))) in *.
      change (weapon_ranking (Some Knife)) with 0 in Hb.
      assert (Hfalse : (rank <? 0) = false) by (apply Z.ltb_ge; lia).
      congruence.
    + destruct (bot_character_missing self k Hk Hc) as [e [_ He]].
      unfold bot_weapon in Hknife. rewrite He in Hknife. discriminate Hknife.
Qed.

Lemma ranking_extremes_witness :
  better_weapon_visible (wisdom_of open_row (bow_ahead "bow") None) = Ok false /\
  (forall b,
     will_pick_up_worse_weapon (wisdom_of open_row (bow_ahead "knife") None) = Ok b ->
     b = false).
Proof.
  split.
  - exact (proj1 (ranking_extremes (wisdom_of open_row (bow_ahead "bow") None)
                    (bow_ahead "bow") eq_refl) eq_refl).
  - exact (proj2 (ranking_extremes (wisdom_of open_row (bow_ahead "knife") None)
                    (bow_ahead "knife") eq_refl) eq_refl).
Defined.

(** X26: [weapon_ranking] stays within 0..10; only the bow is ranked 10;
    the rank 0 is shared by the knife and by a weapon the catalog does not
    know; the axe and the sword rank the same. *)
Theorem weapon_ranking_table (w : option Weapon) :
  0 <= weapon_ranking w <= 10 /\
  (weapon_ranking w = 10 <-> w = Some Bow) /\
  (weapon_ranking w = 0 <-> w = None \/ w = Some Knife) /\
  weapon_ranking (Some Axe) = weapon_ranking (Some Sword).
Proof.
  split; [apply weapon_ranking_bounds | ].
  split; [ | split; [ | reflexivity]].
  - destruct w as [[ | | | | ] | ]; cbn; split; intros H;
      try reflexivity; try discriminate H.
  - destruct w as [[ | | | | ] | ]; cbn; split; intros H; auto;
      try discriminate H; destruct H as [H | H]; discriminate H.
Qed.

Ltac string_cases name :=
  repeat match goal with
         | |- context [String.eqb ?key name] =>
             let E := fresh "E" in
             destruct (String.eqb key name) eqn:E;
             [apply String.eqb_eq in E | ]
         end.

(** X27: the integer codes of the state tell their sources apart: two
    facings with the same code are the same facing, two weapon names with
    the same code are the same name, and a name has a code exactly when
    the catalog has a weapon for it. *)
Theorem state_codes_injective :
  (forall f g, FACING_TO_INT f = FACING_TO_INT g -> f = g) /\
  (forall f, 0 <= FACING_TO_INT f <= 3) /\
  (forall n1 n2 code,
     dict_get String.eqb WEAPON_TO_INT n1 = Some code ->
     dict_get String.eqb WEAPON_TO_INT n2 = Some code -> n1 = n2) /\
  (forall n code, dict_get String.eqb WEAPON_TO_INT n = Some code -> 0 <= code <= 4) /\
  (forall n,
     dict_get String.eqb WEAPONS n = None <->
     dict_get String.eqb WEAPON_TO_INT n = None).
Proof.
  split; [ | split; [ | split; [ | split]]].
  - intros f g H. destruct f, g; cbn in H; congruence.
  - intros f. destruct f; cbn; lia.
  - intros n1 n2 code. unfold WEAPON_TO_INT. cbn [dict_get].
    string_cases n1; string_cases n2; intros H1 H2;
      try discriminate H1; try discriminate H2; try congruence.
  - intros n code. unfold WEAPON_TO_INT. cbn [dict_get].
    string_cases n; intros H; try discriminate H; inversion H; lia.
  - intros n. unfold WEAPONS, WEAPON_TO_INT. cbn [dict_get].
    string_cases n; split; intros H; try discriminate H; reflexivity.
Qed.
